(** * The video-analysis pipeline of youtube-content-classifier

    A shallow embedding of [server/app/worker/tasks.py] (the Celery task
    [analyze_video_task]) together with the services it drives:
    [services/downloader.py], [services/media_proc.py] and
    [services/transcriber.py], and of the job row of [models/models.py].

    The task is sequential Python that mutates one ORM object, commits it
    several times, calls capabilities that may raise, and touches the
    local file system.  It is modelled with an explicit world (committed
    rows, the session's loaded object, the set of existing files, the
    transcriber instance, a clock and an event trace) threaded through a
    state-and-exception monad.  A raised exception keeps the world as it
    was at the raise, as in Python.

    The outside world (yt-dlp, ffmpeg, whisper, torch, the LLM analyser,
    the operating system, the wall clock) is a record [Env] of oracles:
    every theorem quantifies over it, every example instantiates it.

    Scope of the model: a capability fails by raising a subclass of
    [Exception] from inside its call (a Celery soft time limit that
    fires during a stage is such a raise); [self.db.commit()] succeeds;
    [print] has no effect.  Signals delivered between two statements and
    failing commits are outside the model. *)

From Stdlib Require Import Ascii.
From Stdlib Require Qcanon QArith Qround Lqa.
From stdpp Require Import base gmap strings list pretty sorting.

Open Scope Z_scope.
Open Scope string_scope.

(** ** Python values and exceptions *)

(** The JSON-like values yt-dlp hands back in its [info] dictionary. *)
Inductive PyVal : Type :=
| PyNone
| PyStr (s : string)
| PyInt (z : Z).

#[global] Instance PyVal_eq_dec : EqDecision PyVal.
Proof. solve_decision. Defined.

(** [str(v)], as an f-string renders it. *)
Definition py_str (v : PyVal) : string :=
  match v with
  | PyNone => "None"
  | PyStr s => s
  | PyInt z => pretty z
  end.

(** A Python [str] is a sequence of characters (code points).  It is
    read here through its UTF-8 encoding, one [ascii] per byte: a byte
    [10xxxxxx] continues the character begun before it, any other byte
    begins one. *)
Definition is_continuation_byte (b : ascii) : bool :=
  match b with
  | Ascii _ _ _ _ _ _ b6 b7 => b7 && negb b6
  end.

(** [len(s)]: the number of characters. *)
Fixpoint py_len (s : string) : nat :=
  match s with
  | "" => O
  | String b s' =>
      if is_continuation_byte b then py_len s' else S (py_len s')
  end.

(** [s[:n]]: the first [n] characters, each with all its bytes. *)
Fixpoint py_slice_to (n : nat) (s : string) : string :=
  match s with
  | "" => ""
  | String b s' =>
      if is_continuation_byte b then String b (py_slice_to n s')
      else match n with
           | O => ""
           | S n' => String b (py_slice_to n' s')
           end
  end.


(** [d.get(k)]: the value, or [None] for a missing key. *)
Definition dict_get (d : gmap string PyVal) (k : string) : PyVal :=
  default PyNone (d !! k).

(** [d.get(k, dflt)]. *)
Definition dict_get_default (d : gmap string PyVal) (k : string) (dflt : PyVal) : PyVal :=
  default dflt (d !! k).

(** An exception: its class name and [str(e)]. *)
Record exn : Type := Exn { exn_class : string; exn_msg : string }.

#[global] Instance exn_eq_dec : EqDecision exn.
Proof. solve_decision. Defined.

Definition ValueError (msg : string) : exn := Exn "ValueError" msg.
Definition TypeError (msg : string) : exn := Exn "TypeError" msg.
Definition Exception (msg : string) : exn := Exn "Exception" msg.
Definition FileNotFoundError (msg : string) : exn := Exn "FileNotFoundError" msg.
Definition AttributeError (msg : string) : exn := Exn "AttributeError" msg.
Definition SoftTimeLimitExceeded : exn := Exn "SoftTimeLimitExceeded" "SoftTimeLimitExceeded()".

(** What a call does: it returns a value or raises. *)
Inductive outcome (A : Type) : Type :=
| Returns (a : A)
| Raises (e : exn).
Arguments Returns {A} a.
Arguments Raises {A} e.

(** ** [os.path] *)

(** [os.path.join(a, b)] on POSIX. *)
Definition os_path_join (a b : string) : string :=
  match b with
  | String "/"%char _ => b
  | _ =>
      match a with
      | "" => b
      | _ => if String.eqb (String.substring (Nat.pred (String.length a)) 1 a) "/"
             then a +:+ b else a +:+ "/" +:+ b
      end
  end.

(** [p.rfind(c)]: the last index of [c], or [-1]. *)
Fixpoint rfind_from (c : ascii) (p : string) (i : Z) (found : Z) : Z :=
  match p with
  | "" => found
  | String x p' => rfind_from c p' (i + 1) (if Ascii.eqb x c then i else found)
  end.

Definition rfind (c : ascii) (p : string) : Z := rfind_from c p 0 (-1).

Fixpoint string_existsb (f : ascii → bool) (s : string) : bool :=
  match s with
  | "" => false
  | String x s' => f x || string_existsb f s'
  end.

(** [os.path.splitext(p)[0]]: cut at the last dot of the last path
    component, unless that component consists of leading dots only. *)
Definition splitext_root (p : string) : string :=
  let sepIndex := rfind "/"%char p in
  let dotIndex := rfind "."%char p in
  if bool_decide (sepIndex < dotIndex) then
    let stem := String.substring (Z.to_nat (sepIndex + 1)) (Z.to_nat (dotIndex - sepIndex - 1)) p in
    if string_existsb (λ x, negb (Ascii.eqb x "."%char)) stem
    then String.substring 0 (Z.to_nat dotIndex) p
    else p
  else p.

(** ** The data model *)

(** Python floats are only carried around here, never computed with. *)
Definition pyfloat : Type := Qcanon.Qc.

(** One timestamped segment of a transcription. *)
Record Segment : Type := mkSegment {
  seg_start : pyfloat;
  seg_end : pyfloat;
  seg_text : string
}.

(** A segment as whisper returns it: more keys than the service keeps. *)
Record RawSegment : Type := mkRawSegment {
  raw_start : pyfloat;
  raw_end : pyfloat;
  raw_seg_text : string;
  raw_tokens : list Z
}.

(** The dictionary [model.transcribe] returns; [text] is always there,
    [language] and [segments] are read with [.get]. *)
Record WhisperResult : Type := mkWhisperResult {
  raw_text : string;
  raw_language : option string;
  raw_segments : option (list RawSegment)
}.

(** The dictionary [WhisperTranscriber.transcribe] returns. *)
Record Transcription : Type := mkTranscription {
  text : string;
  language : string;
  segments : list Segment
}.

(** Modelled from the spec: the verdict of [LLMAnalyzer.analyze_content]
    ([services/llm_analyzer.py] is not part of the sources); the task
    reads exactly these four keys. *)
Record Analysis : Type := mkAnalysis {
  ai_generated_score : Z;
  dangerous_content : bool;
  danger_categories : list string;
  danger_severity : option string
}.

(** [final_result] of the task. *)
Record Result : Type := mkResult {
  video_info : gmap string PyVal;
  transcription : Transcription;
  analysis : Analysis;
  processed_at : string
}.

(** A row of [analysis_jobs] ([models.AnalysisJob]).  The primary key
    [id] is the key under which the table holds the row. *)
Record AnalysisJob : Type := mkJob {
  youtube_url : string;
  video_title : PyVal;
  status : string;
  result : option Result;
  error_message : option string;
  created_at : option Z;
  completed_at : option Z
}.

Definition set_status (s : string) (j : AnalysisJob) : AnalysisJob :=
  mkJob (youtube_url j) (video_title j) s (result j)
        (error_message j) (created_at j) (completed_at j).

Definition set_video_title (t : PyVal) (j : AnalysisJob) : AnalysisJob :=
  mkJob (youtube_url j) t (status j) (result j)
        (error_message j) (created_at j) (completed_at j).

Definition set_result (r : Result) (j : AnalysisJob) : AnalysisJob :=
  mkJob (youtube_url j) (video_title j) (status j) (Some r)
        (error_message j) (created_at j) (completed_at j).

Definition set_error_message (m : string) (j : AnalysisJob) : AnalysisJob :=
  mkJob (youtube_url j) (video_title j) (status j) (result j)
        (Some m) (created_at j) (completed_at j).

Definition set_completed_at (t : Z) (j : AnalysisJob) : AnalysisJob :=
  mkJob (youtube_url j) (video_title j) (status j) (result j)
        (error_message j) (created_at j) (Some t).

(** The whisper model object held by a transcriber. *)
Record WhisperModel : Type := mkModel { wm_size : string; wm_device : string }.

(** [WhisperTranscriber]: [model] is [None] until [load_model]. *)
Record WhisperTranscriber : Type := mkTranscriber {
  model_size : string;
  model : option WhisperModel;
  device : string
}.

(** ** The world *)

Inductive stage : Type :=
| GetVideoInfo | DownloadAudio | ConvertToWav | Transcribe | Analyze.

(** What an execution does, in the order it does it. *)
Inductive event : Type :=
| EvCommit (j : AnalysisJob)       (* [self.db.commit()], with the row written *)
| EvCall (s : stage)               (* a capability is entered *)
| EvArtifact (path : string)       (* a stage returned this file *)
| EvLoadModel                      (* [whisper.load_model] returned *)
| EvUnloadModel                    (* the model was dropped *)
| EvCudaEmptyCache                 (* [torch.cuda.empty_cache()] *)
| EvRemove (path : string) (ok : bool).  (* [os.remove]; [ok = false]: it raised *)

Record World : Type := mkWorld {
  db : gmap Z AnalysisJob;          (* the committed rows, what a poller reads *)
  session : option (Z * AnalysisJob); (* the task's [job]: its primary key and attributes *)
  fs : gset string;                 (* the files on local storage *)
  whisper : option WhisperTranscriber;  (* the task's [transcriber] *)
  clock_reads : nat;                (* how often the clock was read *)
  trace : list event
}.

Definition with_db (f : gmap Z AnalysisJob → gmap Z AnalysisJob) (w : World) : World :=
  mkWorld (f (db w)) (session w) (fs w) (whisper w) (clock_reads w) (trace w).

Definition with_session (s : option (Z * AnalysisJob)) (w : World) : World :=
  mkWorld (db w) s (fs w) (whisper w) (clock_reads w) (trace w).

Definition with_fs (f : gset string → gset string) (w : World) : World :=
  mkWorld (db w) (session w) (f (fs w)) (whisper w) (clock_reads w) (trace w).

Definition with_whisper (t : option WhisperTranscriber) (w : World) : World :=
  mkWorld (db w) (session w) (fs w) t (clock_reads w) (trace w).

Definition tick (w : World) : World :=
  mkWorld (db w) (session w) (fs w) (whisper w) (S (clock_reads w)) (trace w).

Definition log (e : event) (w : World) : World :=
  mkWorld (db w) (session w) (fs w) (whisper w) (clock_reads w) (trace w ++ [e]).

(** The world a worker starts from: rows and files as they are, nothing
    loaded, nothing done yet. *)
Definition initial_world (rows : gmap Z AnalysisJob) (files : gset string) : World :=
  mkWorld rows None files None 0 [].

(** Row and file operations, kept behind names so that proofs unfold them
    only where they reason about maps and sets. *)
Definition db_put (k : Z) (j : AnalysisJob) (rows : gmap Z AnalysisJob) : gmap Z AnalysisJob :=
  <[k := j]> rows.

Definition fs_add (p : string) (files : gset string) : gset string := {[p]} ∪ files.
Definition fs_del (p : string) (files : gset string) : gset string := files ∖ {[p]}.
Definition fs_mem (p : string) (files : gset string) : bool := bool_decide (p ∈ files).

(** ** The state-and-exception monad *)

Definition M (A : Type) : Type := World → outcome A * World.

Definition ret {A} (a : A) : M A := λ w, (Returns a, w).

Definition raise {A} (e : exn) : M A := λ w, (Raises e, w).

Definition bind {A B} (m : M A) (k : A → M B) : M B :=
  λ w, match m w with
       | (Returns a, w') => k a w'
       | (Raises e, w') => (Raises e, w')
       end.

(** [try: m  except Exception as e: h e]. *)
Definition try_except {A} (m : M A) (h : exn → M A) : M A :=
  λ w, match m w with
       | (Returns a, w') => (Returns a, w')
       | (Raises e, w') => h e w'
       end.

Definition modify (f : World → World) : M unit := λ w, (Returns tt, f w).
Definition emit (e : event) : M unit := modify (log e).

(** Lift an oracle's answer into the monad. *)
Definition lift {A} (o : outcome A) : M A := λ w, (o, w).

Notation "'let*' x ':=' c 'in' k" := (bind c (λ x, k))
  (at level 10, x name, c at level 100, k at level 200).
Notation "c ';;;' k" := (bind c (λ _, k))
  (at level 100, k at level 200, right associativity).

(** ** The environment *)

(** What [ffmpeg.run] does: succeed, raise [ffmpeg.Error] with the
    decoded [stderr], or raise something else (no [ffmpeg] binary, a time
    limit). *)
Inductive ffmpeg_outcome : Type :=
| FfOk
| FfError (stderr : string)
| FfOther (e : exn).

(** Settings, libraries and collaborators.  [analyze_content] stands for
    constructing [LLMAnalyzer] and calling it: [services/llm_analyzer.py]
    is not part of the sources, and a key the task would miss in its
    verdict is a raise of this oracle. *)
Record Env : Type := mkEnv {
  WHISPER_MODEL_SIZE : string;                 (* settings.WHISPER_MODEL_SIZE *)
  TEMP_DIR : string;                           (* settings.TEMP_DIR *)
  os_makedirs : string → option exn;           (* [Some e]: it raises [e] *)
  extract_info : string → bool → outcome (gmap string PyVal);
  ffmpeg_run : string → string → ffmpeg_outcome;
  cuda_is_available : bool;
  whisper_load_model : string → string → option exn;
  model_transcribe : string → outcome WhisperResult;
  analyze_content : string → gmap string PyVal → outcome Analysis;
  os_remove_error : string → option exn;       (* [Some e]: [os.remove] raises [e] *)
  utcnow_at : nat → Z;                         (* the n-th reading of the clock *)
  isoformat : Z → string
}.

Section Pipeline.

Variable env : Env.

(** *** The session and the clock *)

(** [self.db.query(AnalysisJob).filter(AnalysisJob.id == job_id).first()]:
    the row becomes the session's object, or [None]. *)
Definition query_first (job_id : Z) : M (option AnalysisJob) :=
  λ w, (Returns (db w !! job_id), with_session (pair job_id <$> db w !! job_id) w).

(** An attribute assignment on [job]. *)
Definition job_set (f : AnalysisJob → AnalysisJob) : M unit :=
  modify (λ w, with_session (prod_map Datatypes.id f <$> session w) w).

(** An attribute read on [job]. *)
Definition job_get {A} (f : AnalysisJob → A) : M A :=
  λ w, match session w with
       | Some (_, j) => (Returns (f j), w)
       | None => (Raises (AttributeError "'NoneType' object has no attribute"), w)
       end.

(** [self.db.commit()]: the object is written to its row. *)
Definition commit : M unit :=
  λ w, match session w with
       | Some (k, j) => (Returns tt, log (EvCommit j) (with_db (db_put k j) w))
       | None => (Returns tt, w)
       end.

(** [datetime.utcnow()]. *)
Definition utcnow : M Z :=
  λ w, (Returns (utcnow_at env (clock_reads w)), tick w).

(** *** [services/downloader.py] *)

(** [YouTubeDownloader.__init__]: the temporary directory is created. *)
Definition YouTubeDownloader_init : M string :=
  let temp_dir := TEMP_DIR env in
  match os_makedirs env temp_dir with
  | Some e => raise e
  | None => ret temp_dir
  end.

(** [info.get('description', '')[:500]]: a missing key gives the empty
    string, a string is cut to its first 500 characters, anything else
    cannot be sliced. *)
Definition description_excerpt (info : gmap string PyVal) : outcome PyVal :=
  match dict_get_default info "description" (PyStr "") with
  | PyStr s => Returns (PyStr (py_slice_to 500 s))
  | PyNone => Raises (TypeError "'NoneType' object is not subscriptable")
  | PyInt _ => Raises (TypeError "'int' object is not subscriptable")
  end.

(** The dictionary [get_video_info] builds: always these eight keys. *)
Definition video_info_dict (info : gmap string PyVal) (descr : PyVal) : gmap string PyVal :=
  <["id" := dict_get info "id"]>
  (<["title" := dict_get info "title"]>
  (<["duration" := dict_get info "duration"]>
  (<["uploader" := dict_get info "uploader"]>
  (<["upload_date" := dict_get info "upload_date"]>
  (<["view_count" := dict_get info "view_count"]>
  (<["thumbnail" := dict_get info "thumbnail"]>
  (<["description" := descr]> ∅))))))).

Definition get_video_info (url : string) : M (gmap string PyVal) :=
  emit (EvCall GetVideoInfo) ;;;
  let* info := lift (extract_info env url false) in
  let* descr := lift (description_excerpt info) in
  ret (video_info_dict info descr).

(** [download_audio_only]: yt-dlp downloads and converts to mp3; the
    returned path is rebuilt from the video id.  When yt-dlp returns, the
    file is taken to be at that path; when it raises, to have left
    nothing. *)
Definition download_audio_only (temp_dir url : string) : M string :=
  emit (EvCall DownloadAudio) ;;;
  let* info := lift (extract_info env url true) in
  let video_id := dict_get info "id" in
  let audio_filename := os_path_join temp_dir (py_str video_id +:+ ".mp3") in
  modify (with_fs (fs_add audio_filename)) ;;;
  emit (EvArtifact audio_filename) ;;;
  ret audio_filename.

(** *** [services/media_proc.py] *)

(** [MediaProcessor.convert_to_wav] with its default [output_path] and
    sample rate.  When ffmpeg succeeds the WAV file is there; only
    [ffmpeg.Error] is re-worded, anything else passes through. *)
Definition convert_to_wav (audio_path : string) : M string :=
  emit (EvCall ConvertToWav) ;;;
  let base_name := splitext_root audio_path in
  let output_path := base_name +:+ ".wav" in
  match ffmpeg_run env audio_path output_path with
  | FfOk =>
      modify (with_fs (fs_add output_path)) ;;;
      emit (EvArtifact output_path) ;;;
      ret output_path
  | FfError stderr => raise (Exception ("FFmpeg error during WAV conversion: " +:+ stderr))
  | FfOther e => raise e
  end.

(** *** [services/transcriber.py] *)

(** [WhisperTranscriber.__init__] with [model_size = None]. *)
Definition WhisperTranscriber_init : M unit :=
  modify (with_whisper (Some
    (mkTranscriber (WHISPER_MODEL_SIZE env) None
                   (if cuda_is_available env then "cuda" else "cpu")))).

(** A method body run on the task's transcriber. *)
Definition with_self {A} (body : WhisperTranscriber → M A) : M A :=
  λ w, match whisper w with
       | Some t => body t w
       | None => (Raises (AttributeError "transcriber is not constructed"), w)
       end.

Definition set_model (m : option WhisperModel) (t : WhisperTranscriber) : WhisperTranscriber :=
  mkTranscriber (model_size t) m (device t).

(** [load_model]: lazy, a no-op once a model is held. *)
Definition load_model : M unit :=
  with_self (λ self,
    match model self with
    | None =>
        match whisper_load_model env (model_size self) (device self) with
        | Some e => raise e
        | None =>
            modify (with_whisper (Some (set_model (Some (mkModel (model_size self) (device self))) self))) ;;;
            emit EvLoadModel
        end
    | Some _ => ret tt
    end).

Definition keep_segment (seg : RawSegment) : Segment :=
  mkSegment (raw_start seg) (raw_end seg) (raw_seg_text seg).

(** [transcribe] with [language = None]. *)
Definition transcribe (audio_path : string) : M Transcription :=
  emit (EvCall Transcribe) ;;;
  load_model ;;;
  let* result := lift (model_transcribe env audio_path) in
  ret (mkTranscription
         (raw_text result)
         (default "unknown" (raw_language result))
         (keep_segment <$> default [] (raw_segments result))).

(** [unload_model]: drops the model when one is held; nothing else. *)
Definition unload_model : M unit :=
  with_self (λ self,
    match model self with
    | Some _ =>
        modify (with_whisper (Some (set_model None self))) ;;;
        emit EvUnloadModel ;;;
        (if cuda_is_available env then emit EvCudaEmptyCache else ret tt)
    | None => ret tt
    end).

(** *** [os] *)

Definition os_path_exists (p : string) : M bool :=
  λ w, (Returns (fs_mem p (fs w)), w).

(** [os.remove(p)]: refused by the system, done, or no such file. *)
Definition os_remove (p : string) : M unit :=
  match os_remove_error env p with
  | Some e => emit (EvRemove p false) ;;; raise e
  | None =>
      let* present := os_path_exists p in
      if present
      then modify (with_fs (fs_del p)) ;;; emit (EvRemove p true)
      else emit (EvRemove p false) ;;; raise (FileNotFoundError p)
  end.

(** *** [worker/tasks.py] *)

(** [d[k]]: a missing key raises [KeyError]. *)
Definition dict_getitem (d : gmap string PyVal) (k : string) : M PyVal :=
  match d !! k with
  | Some v => ret v
  | None => raise (Exn "KeyError" k)
  end.

(** The cleanup of the success path: both removals sit in one [try], and
    whatever they raise is printed and dropped. *)
Definition cleanup (audio_path wav_path : string) : M unit :=
  try_except
    (let* audio_there := os_path_exists audio_path in
     (if audio_there then os_remove audio_path else ret tt) ;;;
     let* wav_there := os_path_exists wav_path in
     (if wav_there then os_remove wav_path else ret tt))
    (λ cleanup_error, ret tt).

(** The body of the task's [try] block. *)
Definition pipeline : M Result :=
  job_set (set_status "processing") ;;;
  commit ;;;
  let* temp_dir := YouTubeDownloader_init in
  let* url := job_get youtube_url in
  let* video_info := get_video_info url in
  job_set (set_video_title (dict_get_default video_info "title" (PyStr "Unknown"))) ;;;
  commit ;;;
  let* printed_title := dict_getitem video_info "title" in
  let* url := job_get youtube_url in
  let* audio_path := download_audio_only temp_dir url in
  let* wav_path := convert_to_wav audio_path in
  WhisperTranscriber_init ;;;
  let* transcription_result := transcribe wav_path in
  let transcription_text := text transcription_result in
  let detected_language := language transcription_result in
  unload_model ;;;
  emit (EvCall Analyze) ;;;
  let* analysis_result := lift (analyze_content env transcription_text video_info) in
  let* processed := utcnow in
  let final_result :=
    mkResult video_info
             (mkTranscription transcription_text detected_language
                              (segments transcription_result))
             analysis_result
             (isoformat env processed) in
  job_set (set_result final_result) ;;;
  job_set (set_status "completed") ;;;
  let* completed := utcnow in
  job_set (set_completed_at completed) ;;;
  commit ;;;
  cleanup audio_path wav_path ;;;
  ret final_result.

(** The task's [except Exception as e] block. *)
Definition on_error (e : exn) : M Result :=
  job_set (set_status "failed") ;;;
  job_set (set_error_message (exn_msg e)) ;;;
  let* completed := utcnow in
  job_set (set_completed_at completed) ;;;
  commit ;;;
  raise e.

Definition analyze_video_task (job_id : Z) : M Result :=
  let* job := query_first job_id in
  match job with
  | None => raise (ValueError ("Job " +:+ pretty job_id +:+ " not found"))
  | Some _ => try_except pipeline on_error
  end.

End Pipeline.

(** One execution of the task by a worker. *)
Definition run (env : Env) (rows : gmap Z AnalysisJob) (files : gset string)
    (job_id : Z) : outcome Result * World :=
  analyze_video_task env job_id (initial_world rows files).

(** The row [submit_analysis] of [api/endpoints.py] inserts before it
    hands the id to the worker. *)
Definition pending_job (url : string) (created : Z) : AnalysisJob :=
  mkJob url PyNone "pending" None None (Some created) None.

(** ** Reading a trace *)

(** The rows an execution committed, oldest first: what a poller of the
    job can have read, in the order it can have read it. *)
Definition commits (tr : list event) : list AnalysisJob :=
  omap (λ e, match e with EvCommit j => Some j | _ => None end) tr.

Definition is_remove (e : event) : bool :=
  match e with EvRemove _ _ => true | _ => false end.

Definition is_commit (e : event) : bool :=
  match e with EvCommit _ => true | _ => false end.

Definition is_call (e : event) : bool :=
  match e with EvCall _ => true | _ => false end.

Definition is_terminal (s : string) : bool :=
  String.eqb s "completed" || String.eqb s "failed".

(** One legal change of [status]. *)
Definition legal_step (s s' : string) : bool :=
  (String.eqb s "pending" && String.eqb s' "processing")
  || (String.eqb s "processing" && is_terminal s').

(** A history of statuses in which every change is a legal step; writing
    the same status again is no change. *)
Fixpoint legal_history (h : list string) : bool :=
  match h with
  | s :: ((s' :: _) as rest) =>
      (String.eqb s s' || legal_step s s') && legal_history rest
  | _ => true
  end.

(** The order "title write first, processing entry second", as a poller
    would see it: every committed row that shows [status = "processing"]
    already shows the fetched title. *)
Definition title_write_precedes_processing_entry
    (fetched : PyVal) (cs : list AnalysisJob) : bool :=
  forallb (λ j, implb (String.eqb (status j) "processing")
                      (bool_decide (video_title j = fetched))) cs.

(** Every artifact a stage produced is gone from local storage. *)
Definition artifacts_gone (w : World) : Prop :=
  ∀ p, EvArtifact p ∈ trace w → p ∉ fs w.

(** The same environment with another behaviour of [os.remove]. *)
Definition with_os_remove_error (rm : string → option exn) (env : Env) : Env :=
  mkEnv (WHISPER_MODEL_SIZE env) (TEMP_DIR env) (os_makedirs env)
        (extract_info env) (ffmpeg_run env) (cuda_is_available env)
        (whisper_load_model env) (model_transcribe env) (analyze_content env)
        rm (utcnow_at env) (isoformat env).

(** ** Concrete scenarios *)

Module Scenario.

Definition info : gmap string PyVal :=
  <["id" := PyStr "abc"]>
  (<["title" := PyStr "A talk"]>
  (<["description" := PyStr "about things"]> ∅)).

Definition heard : WhisperResult :=
  mkWhisperResult "hello" (Some "en") None.

Definition verdict : Analysis := mkAnalysis 10 false [] None.

(** Every capability succeeds, every deletion succeeds. *)
Definition all_good : Env :=
  mkEnv "base" "/app/temp" (λ _, None) (λ _ _, Returns info) (λ _ _, FfOk)
        false (λ _ _, None) (λ _, Returns heard) (λ _ _, Returns verdict)
        (λ _, None) (λ n, 100 + Z.of_nat n) pretty.

(** As [all_good], but [os.remove] is refused. *)
Definition remove_denied : Env :=
  with_os_remove_error (λ _, Some (Exn "PermissionError" "denied")) all_good.

(** The download succeeds, ffmpeg fails. *)
Definition ffmpeg_fails : Env :=
  mkEnv "base" "/app/temp" (λ _, None) (λ _ _, Returns info)
        (λ _ _, FfError "bad stream")
        false (λ _ _, None) (λ _, Returns heard) (λ _ _, Returns verdict)
        (λ _, None) (λ n, 100 + Z.of_nat n) pretty.

(** The model loads, then the time limit fires inside the transcription. *)
Definition transcribe_times_out : Env :=
  mkEnv "base" "/app/temp" (λ _, None) (λ _ _, Returns info) (λ _ _, FfOk)
        false (λ _ _, None) (λ _, Raises SoftTimeLimitExceeded)
        (λ _ _, Returns verdict)
        (λ _, None) (λ n, 100 + Z.of_nat n) pretty.

Definition job : AnalysisJob := pending_job "https://youtu.be/abc" 50.

Definition rows : gmap Z AnalysisJob := {[ 7 := job ]}.

(** What [all_good] returns and stores. *)
Definition payload : Result :=
  mkResult (video_info_dict info (PyStr "about things"))
           (mkTranscription "hello" "en" [])
           verdict "100".

Definition mp3 : string := "/app/temp/abc.mp3".
Definition wav : string := "/app/temp/abc.wav".

End Scenario.

(** ** Beyond the task: the rest of the services, the task base class
    and the endpoints *)

(** *** Reading more off a trace *)

(** The stages an execution entered, oldest first. *)
Definition calls (tr : list event) : list stage :=
  omap (λ e, match e with EvCall s => Some s | _ => None end) tr.


(** The paths of the files the stages returned, oldest first. *)
Definition artifacts (tr : list event) : list string :=
  omap (λ e, match e with EvArtifact p => Some p | _ => None end) tr.

(** *** More of [os.path] and of strings *)

(** [s[n:]]. *)
Fixpoint string_drop (n : nat) (s : string) : string :=
  match n, s with
  | O, _ => s
  | S n', String _ s' => string_drop n' s'
  | S _, "" => ""
  end.

(** [os.path.splitext(p)[1]]: what [splitext_root] cuts off. *)
Definition splitext_ext (p : string) : string :=
  string_drop (String.length (splitext_root p)) p.

(** The last character of a string. *)
Fixpoint string_last (s : string) : option ascii :=
  match s with
  | "" => None
  | String x "" => Some x
  | String _ s' => string_last s'
  end.

(** *** [services/downloader.py]: the keys of the metadata *)

(** The keys of the dictionary [get_video_info] returns. *)
Definition video_info_keys : gset string :=
  {[ "id"; "title"; "duration"; "uploader"; "upload_date"; "view_count";
     "thumbnail"; "description" ]}.

(** *** [services/transcriber.py]: what is made of whisper's answer *)

(** The dictionary [transcribe] builds from the one of [model.transcribe]. *)
Definition transcription_of (heard : WhisperResult) : Transcription :=
  mkTranscription (raw_text heard)
                  (default "unknown" (raw_language heard))
                  (keep_segment <$> default [] (raw_segments heard)).

(** [f"{z:02d}"]: at least two characters, padded with a zero. *)
Definition format_02d (z : Z) : string :=
  if bool_decide (0 ≤ z < 10)%Z then "0" +:+ pretty z else pretty z.

(** [int(x)]: towards zero. *)
Definition py_int (x : QArith_base.Q) : Z :=
  if QArith_base.Qle_bool (QArith_base.inject_Z 0) x
  then Qround.Qfloor x else Qround.Qceiling x.

(** The floats on which [seconds // 60] and [seconds % 60] are computed
    without rounding: the finite floats from 0 up to 2^53.  There the
    remainder ([fmod]) is exact, [seconds - remainder] is a multiple of
    the unit in the last place of [seconds] and so a float, and its
    quotient by 60 is a whole number below 2^53.  On other floats Python
    rounds (or adjusts the sign); they are left out. *)
Definition computed_exactly (seconds : pyfloat) : bool :=
  QArith_base.Qle_bool (QArith_base.inject_Z 0) (Qcanon.this seconds)
  && negb (QArith_base.Qle_bool (QArith_base.inject_Z (2 ^ 53))
                                (Qcanon.this seconds)).

(** [seconds // 60] and [seconds % 60], where they are exact: the floor
    quotient and its remainder.  [None] is a float left out. *)
Definition floordiv_60 (seconds : pyfloat) : option QArith_base.Q :=
  if computed_exactly seconds
  then Some (QArith_base.inject_Z
               (Qround.Qfloor (QArith_base.Qdiv (Qcanon.this seconds)
                                                (QArith_base.inject_Z 60))))
  else None.

Definition mod_60 (seconds : pyfloat) : option QArith_base.Q :=
  q ← floordiv_60 seconds;
  Some (QArith_base.Qminus (Qcanon.this seconds)
          (QArith_base.Qmult (QArith_base.inject_Z 60) q)).

(** [WhisperTranscriber._format_timestamp]. *)
Definition _format_timestamp (seconds : pyfloat) : option string :=
  minutes ← py_int <$> floordiv_60 seconds;
  secs ← py_int <$> mod_60 seconds;
  Some (format_02d minutes +:+ ":" +:+ format_02d secs).

(** *** [services/media_proc.py]: the other methods *)

(** A keyword argument handed to ffmpeg-python. *)
Inductive FfVal : Type :=
| FfStr (s : string)
| FfInt (z : Z)
| FfFloat (q : pyfloat).

(** The stream [ffmpeg.output(ffmpeg.input(i, **iopts), o, **oopts)]. *)
Record FfmpegCommand : Type := mkCmd {
  ff_input : string;
  ff_input_opts : list (string * FfVal);
  ff_output : string;
  ff_output_opts : list (string * FfVal)
}.

(** [if output_path is None: output_path = dflt]. *)
Definition output_or (dflt : string) (output_path : option string) : string :=
  match output_path with
  | None => dflt
  | Some o => o
  end.

Definition extract_audio_command (video_path : string)
    (output_path : option string) : FfmpegCommand :=
  let base_name := splitext_root video_path in
  mkCmd video_path []
        (output_or (base_name +:+ "_audio.mp3") output_path)
        [("acodec", FfStr "libmp3lame"); ("audio_bitrate", FfStr "192k")].

Definition convert_to_wav_command (audio_path : string)
    (output_path : option string) (sample_rate : Z) : FfmpegCommand :=
  let base_name := splitext_root audio_path in
  mkCmd audio_path []
        (output_or (base_name +:+ ".wav") output_path)
        [("acodec", FfStr "pcm_s16le"); ("ar", FfInt sample_rate);
         ("ac", FfInt 1)].

(** The float [0.0]. *)
Definition float_zero : pyfloat := Qcanon.Q2Qc (QArith_base.Qmake 0 1).

(** [if duration:] is false for [None] and for [0.0] alike. *)
Definition duration_given (duration : option pyfloat) : bool :=
  match duration with
  | None => false
  | Some d => negb (bool_decide (d = float_zero))
  end.

Definition trim_audio_command (audio_path : string)
    (output_path : option string) (start_time : pyfloat)
    (duration : option pyfloat) : FfmpegCommand :=
  let base_name := splitext_root audio_path in
  let out := output_or (base_name +:+ "_trimmed.mp3") output_path in
  match duration with
  | Some d =>
      if duration_given duration
      then mkCmd audio_path [("ss", FfFloat start_time)] out
                 [("t", FfFloat d); ("acodec", FfStr "copy")]
      else mkCmd audio_path [("ss", FfFloat start_time)] out
                 [("acodec", FfStr "copy")]
  | None =>
      mkCmd audio_path [("ss", FfFloat start_time)] out
            [("acodec", FfStr "copy")]
  end.

(** A value of the JSON that [ffmpeg.probe] parses. *)
#[warnings="-register-all"]
Inductive Json : Type :=
| JNull
| JBool (b : bool)
| JNum (q : pyfloat)
| JStr (s : string)
| JList (l : list Json)
| JDict (d : list (string * Json)).

(** Lookup of a key in a JSON object (a parsed object has each key
    once). *)
Fixpoint json_get (k : string) (d : list (string * Json)) : option Json :=
  match d with
  | [] => None
  | (k', v) :: d' => if String.eqb k k' then Some v else json_get k d'
  end.

Definition KeyError (key_repr : string) : exn := Exn "KeyError" key_repr.
Definition IndexError (msg : string) : exn := Exn "IndexError" msg.

(** [v[key]] for a string key; [str(KeyError(key))] is the quoted key.
    The wording of a [TypeError] depends on the Python version; only its
    class is relied on. *)
Definition getitem_str (v : Json) (key : string) : outcome Json :=
  match v with
  | JDict d =>
      match json_get key d with
      | Some x => Returns x
      | None => Raises (KeyError ("'" +:+ key +:+ "'"))
      end
  | JList _ => Raises (TypeError "list indices must be integers or slices, not str")
  | JStr _ => Raises (TypeError "string indices must be integers, not 'str'")
  | _ => Raises (TypeError "object is not subscriptable")
  end.

(** [v[0]]. *)
Definition getitem_0 (v : Json) : outcome Json :=
  match v with
  | JList [] => Raises (IndexError "list index out of range")
  | JList (x :: _) => Returns x
  | JDict d => Raises (KeyError "0")
  | JStr "" => Raises (IndexError "string index out of range")
  | JStr (String c _) => Returns (JStr (String c ""))
  | _ => Raises (TypeError "object is not subscriptable")
  end.

Definition bind_outcome {A B} (o : outcome A) (k : A → outcome B) : outcome B :=
  match o with
  | Returns a => k a
  | Raises e => Raises e
  end.

Section MediaProcessor.

(** [ffmpeg.run(stream, overwrite_output=True, quiet=True)]. *)
Variable ffmpeg_exec : FfmpegCommand → ffmpeg_outcome.

(** [ffmpeg.probe(path)]: the parsed JSON object, or a raise
    ([ffmpeg.Error] has the class name ["ffmpeg.Error"]). *)
Variable probe : string → outcome (list (string * Json)).

(** [float(s)] for a string: the number, or the message of the
    [ValueError]. *)
Variable float_of_string : string → pyfloat + string.

(** Run a command; an [ffmpeg.Error] is re-raised under the method's own
    wording, anything else passes through. *)
Definition run_or_reword (wording : string) (cmd : FfmpegCommand) : outcome string :=
  match ffmpeg_exec cmd with
  | FfOk => Returns (ff_output cmd)
  | FfError stderr => Raises (Exception (wording +:+ stderr))
  | FfOther e => Raises e
  end.

Definition extract_audio (video_path : string) (output_path : option string)
    : outcome string :=
  run_or_reword "FFmpeg error during audio extraction: "
                (extract_audio_command video_path output_path).

(** [convert_to_wav] with all its arguments. *)
Definition MediaProcessor_convert_to_wav (audio_path : string)
    (output_path : option string) (sample_rate : Z) : outcome string :=
  run_or_reword "FFmpeg error during WAV conversion: "
                (convert_to_wav_command audio_path output_path sample_rate).

Definition trim_audio (audio_path : string) (output_path : option string)
    (start_time : pyfloat) (duration : option pyfloat) : outcome string :=
  run_or_reword "FFmpeg error during audio trimming: "
                (trim_audio_command audio_path output_path start_time duration).

(** [float(v)]. *)
Definition py_float (v : Json) : outcome pyfloat :=
  match v with
  | JNum q => Returns q
  | JBool b => Returns (Qcanon.Q2Qc (QArith_base.Qmake (if b then 1 else 0) 1))
  | JStr s =>
      match float_of_string s with
      | inl q => Returns q
      | inr msg => Raises (ValueError msg)
      end
  | _ => Raises (TypeError "float() argument must be a string or a real number")
  end.

(** [except (ffmpeg.Error, KeyError, ValueError)]. *)
Definition duration_error_is_caught (e : exn) : bool :=
  String.eqb (exn_class e) "ffmpeg.Error"
  || String.eqb (exn_class e) "KeyError"
  || String.eqb (exn_class e) "ValueError".

Definition get_audio_duration (audio_path : string) : outcome pyfloat :=
  let body :=
    bind_outcome (probe audio_path) (λ p,
    bind_outcome (getitem_str (JDict p) "streams") (λ streams,
    bind_outcome (getitem_0 streams) (λ stream,
    bind_outcome (getitem_str stream "duration") (λ d,
    py_float d)))) in
  match body with
  | Returns duration => Returns duration
  | Raises e =>
      if duration_error_is_caught e
      then Raises (Exception ("Error getting audio duration: " +:+ exn_msg e))
      else Raises e
  end.

End MediaProcessor.

(** *** [DatabaseTask] of [worker/tasks.py] *)

(** The task object: [_db] is the session it holds, if any.  Sessions
    are numbered in the order [SessionLocal()] makes them; [closed]
    lists the sessions [close()] was called on, latest first. *)
Record DatabaseTask : Type := mkTask {
  _db : option nat;
  sessions_made : nat;
  closed : list nat
}.

(** The task as Celery instantiates it: the class attribute [_db = None]. *)
Definition new_task : DatabaseTask := mkTask None 0 [].

(** The property [db]: the session held, made first if there is none. *)
Definition db_property (self : DatabaseTask) : nat * DatabaseTask :=
  match _db self with
  | None =>
      (sessions_made self,
       mkTask (Some (sessions_made self)) (S (sessions_made self)) (closed self))
  | Some s => (s, self)
  end.

(** [after_return]: close the session held and forget it. *)
Definition after_return (self : DatabaseTask) : DatabaseTask :=
  match _db self with
  | Some s => mkTask None (sessions_made self) (s :: closed self)
  | None => self
  end.

(** What happens to a task object over its life: [self.db] is read, or
    Celery calls [after_return]. *)
Inductive task_op : Type := ReadDb | AfterReturn.

Definition task_step_op (self : DatabaseTask) (op : task_op) : DatabaseTask :=
  match op with
  | ReadDb => (db_property self).2
  | AfterReturn => after_return self
  end.

Definition task_life (ops : list task_op) : DatabaseTask :=
  foldl task_step_op new_task ops.

(** The invariant of a task object's life: no session is closed twice,
    only sessions that were made are closed, and every session made is
    closed unless it is the one held. *)
Definition task_ok (self : DatabaseTask) : Prop :=
  NoDup (closed self)
  ∧ (∀ s, s ∈ closed self → (s < sessions_made self)%nat)
  ∧ match _db self with
    | Some s =>
        (s < sessions_made self)%nat ∧ (s ∉ closed self)
        ∧ (∀ s', (s' < sessions_made self)%nat → s' ≠ s → s' ∈ closed self)
    | None => ∀ s', (s' < sessions_made self)%nat → s' ∈ closed self
    end.

(** *** [api/endpoints.py] *)

(** What an endpoint does: it returns its response model, raises
    [HTTPException], or fails to build the response because pydantic
    refuses a field ([ValidationError], which is no [HTTPException]). *)
Inductive http (A : Type) : Type :=
| Ok200 (a : A)
| HTTPException (status_code : Z) (detail : string)
| ValidationError.
Arguments Ok200 {A} a.
Arguments HTTPException {A} status_code detail.
Arguments ValidationError {A}.

Record AnalyzeResponse : Type := mkAnalyzeResponse {
  ar_job_id : Z;
  ar_status : string;
  ar_message : string
}.

Record StatusResponse : Type := mkStatusResponse {
  sr_job_id : Z;
  sr_youtube_url : string;
  sr_video_title : PyVal;
  sr_status : string;
  sr_created_at : string;
  sr_completed_at : option string;
  sr_error_message : option string
}.

Record ResultResponse : Type := mkResultResponse {
  rr_job_id : Z;
  rr_youtube_url : string;
  rr_video_title : PyVal;
  rr_status : string;
  rr_result : option Result;
  rr_error_message : option string;
  rr_created_at : string;
  rr_completed_at : option string
}.

(** [submit_analysis]: the row is inserted as [pending] with [url], the
    string [str(request.youtube_url)]; the database gives it its id
    [new_id] (one no row has) and its creation time [now], and that id
    is what is handed to the worker ([analyze_video_task.delay(job.id)]).
    The result is the table, the response and the id dispatched. *)
Definition submit_analysis (rows : gmap Z AnalysisJob) (url : string)
    (new_id now : Z) : gmap Z AnalysisJob * AnalyzeResponse * Z :=
  let job := mkJob url PyNone "pending" None None (Some now) None in
  (<[new_id := job]> rows,
   mkAnalyzeResponse new_id (status job)
     "Analysis job submitted successfully. Use the job_id to check status.",
   new_id).

(** [ORDER BY created_at DESC]: newer rows first.  Where rows without a
    creation time go is up to the database: before all others
    ([nulls_first], as PostgreSQL has it) or after them. *)
Definition newer_or_same (nulls_first : bool) (a b : Z * AnalysisJob) : Prop :=
  match created_at a.2, created_at b.2 with
  | None, None => True
  | None, Some _ => nulls_first = true
  | Some _, None => nulls_first = false
  | Some x, Some y => (y ≤ x)%Z
  end.

#[global] Instance newer_or_same_dec nulls_first a b :
  Decision (newer_or_same nulls_first a b).
Proof.
  unfold newer_or_same.
  destruct (created_at a.2), (created_at b.2); apply _.
Defined.

(** [if status:] holds for a status that is given and not empty; only
    then are the rows filtered. *)
Definition status_filter (status_arg : option string) (row : Z * AnalysisJob) : bool :=
  match status_arg with
  | None | Some "" => true
  | Some s => String.eqb (status row.2) s
  end.

(** The rows [list_jobs] selects: the query
    [SELECT ... WHERE status = :status ORDER BY created_at DESC LIMIT :limit].
    What a negative [limit] does is up to the database and is left out
    ([None]). *)
Definition list_jobs_rows (nulls_first : bool) (rows : gmap Z AnalysisJob)
    (limit : Z) (status_arg : option string) : option (list (Z * AnalysisJob)) :=
  if bool_decide (limit < 0)%Z then None
  else Some (take (Z.to_nat limit)
               (merge_sort (newer_or_same nulls_first)
                  (filter (λ row, status_filter status_arg row = true)
                     (map_to_list rows)))).

Section Endpoints.

(** [datetime.isoformat]. *)
Variable isoformat : Z → string.

Definition not_found {A} (job_id : Z) : http A :=
  HTTPException 404 ("Job " +:+ pretty job_id +:+ " not found").

(** [StatusResponse(...)] of a row.  [created_at] is declared [str]: the
    [None] the endpoint passes for a row without a creation time is
    refused. *)
Definition status_response (job_id : Z) (job : AnalysisJob) : http StatusResponse :=
  match created_at job with
  | Some c =>
      Ok200 (mkStatusResponse job_id (youtube_url job) (video_title job)
               (status job) (isoformat c) (isoformat <$> completed_at job)
               (error_message job))
  | None => ValidationError
  end.

Definition get_analysis_status (rows : gmap Z AnalysisJob) (job_id : Z)
    : http StatusResponse :=
  match rows !! job_id with
  | None => not_found job_id
  | Some job => status_response job_id job
  end.

Definition get_analysis_result (rows : gmap Z AnalysisJob) (job_id : Z)
    : http ResultResponse :=
  match rows !! job_id with
  | None => not_found job_id
  | Some job =>
      if String.eqb (status job) "pending" || String.eqb (status job) "processing"
      then HTTPException 202
             ("Job is still " +:+ status job +:+ ". Please check back later.")
      else
        match created_at job with
        | Some c =>
            Ok200 (mkResultResponse job_id (youtube_url job) (video_title job)
                     (status job) (result job) (error_message job)
                     (isoformat c) (isoformat <$> completed_at job))
        | None => ValidationError
        end
  end.

(** The list comprehension of [list_jobs]: the responses in order, or
    the first failure. *)
Fixpoint status_responses (jobs : list (Z * AnalysisJob))
    : http (list StatusResponse) :=
  match jobs with
  | [] => Ok200 []
  | row :: rest =>
      match status_response row.1 row.2 with
      | Ok200 r =>
          match status_responses rest with
          | Ok200 rs => Ok200 (r :: rs)
          | HTTPException c d => HTTPException c d
          | ValidationError => ValidationError
          end
      | HTTPException c d => HTTPException c d
      | ValidationError => ValidationError
      end
  end.

Definition list_jobs (nulls_first : bool) (rows : gmap Z AnalysisJob)
    (limit : Z) (status_arg : option string)
    : option (http (list StatusResponse)) :=
  status_responses <$> list_jobs_rows nulls_first rows limit status_arg.

End Endpoints.

(** *** More concrete inputs *)

Module Cases.

Definition other_job : AnalysisJob :=
  mkJob "https://youtu.be/xyz" (PyStr "Older") "completed" None None (Some 10) (Some 20).

Definition newest_job : AnalysisJob := pending_job "https://youtu.be/new" 90.

(** Three jobs: 7 pending (created at 50), 8 completed (created at 10),
    9 pending (created at 90). *)
Definition three_rows : gmap Z AnalysisJob :=
  <[9 := newest_job]> (<[8 := other_job]> Scenario.rows).

(** A row that was inserted without a creation time. *)
Definition undated_job : AnalysisJob :=
  mkJob "https://youtu.be/old" PyNone "pending" None None None None.

Definition with_undated_row : gmap Z AnalysisJob :=
  <[3 := undated_job]> Scenario.rows.

(** yt-dlp answers with a description that is [None]. *)
Definition info_without_description : gmap string PyVal :=
  <["description" := PyNone]> Scenario.info.

Definition null_description : Env :=
  mkEnv "base" "/app/temp" (λ _, None)
        (λ _ _, Returns info_without_description) (λ _ _, FfOk)
        false (λ _ _, None) (λ _, Returns Scenario.heard)
        (λ _ _, Returns Scenario.verdict)
        (λ _, None) (λ n, 100 + Z.of_nat n) pretty.

(** The whisper model cannot be loaded. *)
Definition load_fails : Env :=
  mkEnv "base" "/app/temp" (λ _, None) (λ _ _, Returns Scenario.info)
        (λ _ _, FfOk)
        false (λ _ _, Some (Exn "RuntimeError" "out of memory"))
        (λ _, Returns Scenario.heard) (λ _ _, Returns Scenario.verdict)
        (λ _, None) (λ n, 100 + Z.of_nat n) pretty.

(** A world in which nothing has happened yet. *)
Definition empty_world : World := initial_world ∅ ∅.

(** What ffprobe says of a file with one audio stream of 12.5 seconds. *)
Definition twelve_and_a_half : pyfloat := Qcanon.Q2Qc (QArith_base.Qmake 25 2).

Definition good_probe : list (string * Json) :=
  [("streams", JList [JDict [("codec_name", JStr "mp3");
                             ("duration", JStr "12.5")]]);
   ("format", JDict [])].

Definition probe_of (answer : list (string * Json)) (path : string)
    : outcome (list (string * Json)) :=
  Returns answer.

Definition parse_float (s : string) : pyfloat + string :=
  if String.eqb s "12.5" then inl twelve_and_a_half
  else inr ("could not convert string to float: '" +:+ s +:+ "'").

(** 2 minutes 5.5 seconds. *)
Definition some_seconds : pyfloat := Qcanon.Q2Qc (QArith_base.Qmake 251 2).

(** One hour, one minute, one and a half seconds. *)
Definition over_an_hour : pyfloat := Qcanon.Q2Qc (QArith_base.Qmake 7323 2).

End Cases.

(** ** Symbolic execution *)

Arguments db_put : simpl never.
Arguments fs_add : simpl never.
Arguments fs_del : simpl never.
Arguments fs_mem : simpl never.
Arguments os_path_join : simpl never.
Arguments splitext_root : simpl never.
Arguments video_info_dict : simpl never.
Arguments description_excerpt : simpl never.
Arguments dict_get : simpl never.
Arguments dict_get_default : simpl never.
Arguments py_str : simpl never.
Arguments String.append : simpl never.
Arguments pretty : simpl never.

(** Unfold the task down to the oracles; [cleanup] stays folded. *)
Ltac norm :=
  lazy beta iota zeta delta
    [run analyze_video_task pipeline on_error query_first
     job_set job_get commit utcnow YouTubeDownloader_init get_video_info
     download_audio_only convert_to_wav WhisperTranscriber_init transcribe
     load_model unload_model with_self set_model
     dict_getitem emit modify lift try_except bind ret raise initial_world
     log tick with_db with_session with_fs with_whisper
     db session fs whisper clock_reads trace model model_size device
     with_os_remove_error WHISPER_MODEL_SIZE TEMP_DIR os_makedirs
     extract_info ffmpeg_run cuda_is_available whisper_load_model
     model_transcribe analyze_content os_remove_error utcnow_at isoformat
     fst snd fmap option_fmap option_map prod_map Datatypes.id];
  cbn [app youtube_url set_status set_video_title set_result
       set_error_message set_completed_at].

(** The same, through [cleanup] and the file operations. *)
Ltac norm_cleanup :=
  lazy beta iota zeta delta
    [cleanup os_remove os_path_exists
     emit modify lift try_except bind ret raise
     log tick with_db with_session with_fs with_whisper
     db session fs whisper clock_reads trace
     with_os_remove_error os_remove_error
     fst snd];
  cbn [app].

(** Split on the innermost stuck [match]: the next oracle the run asks. *)
Ltac exec_step :=
  match goal with
  | |- context [match ?o with _ => _ end] =>
      lazymatch o with
      | context [match _ with _ => _ end] => fail
      | context [cleanup] => fail
      | _ => destruct o eqn:?
      end
  end.

(** One step of the task: the title key is known to be present
    ([has_title]), [cleanup] is replaced by what it is known to do
    ([clean]), anything else is a question to an oracle. *)
Ltac task_step has_title clean :=
  match goal with
  | |- context [video_info_dict ?i ?d !! "title"] =>
      rewrite (has_title i d)
  | |- context [cleanup ?e ?a ?b ?w] =>
      let files := fresh "files" in
      let evs := fresh "evs" in
      let Hc := fresh "Hclean" in
      let Hrm := fresh "Hremoves" in
      destruct (clean e a b w) as (files & evs & Hc & Hrm);
      rewrite Hc; clear Hc
  | _ => exec_step
  end.

Ltac exec_task has_title clean :=
  norm; repeat (task_step has_title clean; norm).

(** Go through a membership in a literal list of events. *)
Ltac pick_event Hp :=
  repeat match type of Hp with
         | _ ∈ _ :: _ =>
             apply elem_of_cons in Hp as [Hp|Hp];
             [first [discriminate Hp | injection Hp as ->] |]
         | _ ∈ [] => by apply elem_of_nil in Hp
         end.

(** ** Supporting lemmas *)

Lemma video_info_dict_title info descr :
  video_info_dict info descr !! "title" = Some (dict_get info "title").
Proof. unfold video_info_dict. by simplify_map_eq. Qed.

(** The task reads the title back with the default ['Unknown'], which
    never applies: the key is always there, if only with [None]. *)
Lemma video_info_title_default info descr :
  dict_get_default (video_info_dict info descr) "title" (PyStr "Unknown")
  = dict_get info "title".
Proof. unfold dict_get_default. by rewrite video_info_dict_title. Qed.

Lemma commits_app tr1 tr2 :
  commits (tr1 ++ tr2) = (commits tr1 ++ commits tr2)%list.
Proof. unfold commits. apply omap_app. Qed.

Lemma commits_removes evs :
  Forall (λ e, is_remove e = true) evs → commits evs = [].
Proof.
  induction 1 as [|e evs He _ IH]; [done|].
  destruct e; try discriminate He. exact IH.
Qed.

Lemma commits_cons e tr :
  commits (e :: tr)
  = match e with EvCommit j => j :: commits tr | _ => commits tr end.
Proof. by destruct e. Qed.

(** Read the commits off a trace that ends in the events of [cleanup]. *)
Ltac read_commits :=
  repeat (rewrite commits_cons; cbv beta iota);
  repeat match goal with
         | H : Forall (λ e, is_remove e = true) ?evs |- context [commits ?evs] =>
             rewrite (commits_removes evs H)
         end;
  change (commits []) with (@nil AnalysisJob).

(** [cleanup] never raises, and touches nothing but the files: it only
    appends removal events to the trace. *)
Lemma cleanup_spec env audio_path wav_path w :
  ∃ files evs,
    cleanup env audio_path wav_path w
    = (Returns tt,
       mkWorld (db w) (session w) files (whisper w) (clock_reads w)
               (trace w ++ evs))
    ∧ Forall (λ e, is_remove e = true) evs.
Proof.
  destruct env, w as [d s f t c tr]. norm_cleanup.
  repeat (exec_step; norm_cleanup);
    rewrite <- ?app_assoc; do 2 eexists;
    (split; [first [reflexivity | by rewrite app_nil_r] |]);
    repeat constructor.
Qed.

Lemma db_put_lookup k j rows : db_put k j rows !! k = Some j.
Proof. apply lookup_insert_eq. Qed.

Lemma split_here {A} (x : A) post : x :: post = ([] ++ x :: post)%list.
Proof. reflexivity. Qed.

Lemma split_later {A} (e x : A) l pre post :
  l = (pre ++ x :: post)%list → e :: l = ((e :: pre) ++ x :: post)%list.
Proof. by intros ->. Qed.

Lemma fs_mem_true p files : fs_mem p files = true → p ∈ files.
Proof. apply bool_decide_eq_true. Qed.

Lemma fs_mem_false p files : fs_mem p files = false → p ∉ files.
Proof. apply bool_decide_eq_false. Qed.

Lemma fs_del_gone p files : p ∉ fs_del p files.
Proof.
  unfold fs_del. rewrite elem_of_difference, elem_of_singleton. tauto.
Qed.

Lemma fs_del_stays_gone p q files : p ∉ files → p ∉ fs_del q files.
Proof. unfold fs_del. rewrite elem_of_difference. tauto. Qed.

(** ** The model on examples *)

Example os_path_join_cases :
  os_path_join "/app/temp" "abc.mp3" = "/app/temp/abc.mp3"
  ∧ os_path_join "/app/temp/" "abc.mp3" = "/app/temp/abc.mp3"
  ∧ os_path_join "/app/temp" "/abc.mp3" = "/abc.mp3"
  ∧ os_path_join "" "abc.mp3" = "abc.mp3".
Proof. repeat split; reflexivity. Qed.

Example splitext_root_cases :
  splitext_root "/app/temp/abc.mp3" = "/app/temp/abc"
  ∧ splitext_root "/app/temp/a.b.mp3" = "/app/temp/a.b"
  ∧ splitext_root "/app/te.mp/abc" = "/app/te.mp/abc"
  ∧ splitext_root "/app/temp/.mp3" = "/app/temp/.mp3"
  ∧ splitext_root "/app/temp/..mp3" = "/app/temp/..mp3"
  ∧ splitext_root "/app/temp/.a.mp3" = "/app/temp/.a".
Proof. repeat split; vm_compute; reflexivity. Qed.

(** The paths of the scenarios are the ones the services compute. *)
Example scenario_paths :
  os_path_join "/app/temp" (py_str (dict_get Scenario.info "id") +:+ ".mp3")
    = Scenario.mp3
  ∧ splitext_root Scenario.mp3 +:+ ".wav" = Scenario.wav.
Proof. split; vm_compute; reflexivity. Qed.

Example legal_history_accepts :
  legal_history ["pending"; "processing"; "processing"; "failed"] = true.
Proof. reflexivity. Qed.

Example legal_history_rejects_leaving_terminal :
  legal_history ["pending"; "processing"; "completed"; "failed"] = false
  ∧ legal_history ["completed"; "processing"] = false
  ∧ legal_history ["pending"; "completed"] = false.
Proof. repeat split; reflexivity. Qed.

(** ** Intermediate artifacts *)

(** C1.  The failure path does not clean up.  Whenever the task raises
    for a job it found, it has not attempted a single removal, and every
    file its stages produced is still on local storage when the task is
    left: the handler records the failure and re-raises, and only the
    straight-line path reaches the removals. *)
Theorem artifacts_left_behind env rows files job_id j0 e :
  rows !! job_id = Some j0 →
  (run env rows files job_id).1 = Raises e →
  filter (λ ev, is_remove ev = true) (trace (run env rows files job_id).2) = []
  ∧ ∀ p, EvArtifact p ∈ trace (run env rows files job_id).2 →
         p ∈ fs (run env rows files job_id).2.
Proof.
  intros Hj. destruct env. norm. rewrite Hj.
  exec_task video_info_dict_title cleanup_spec.
  all: intros Hraise; try discriminate Hraise.
  all: split; [reflexivity|].
  all: intros p Hp; cbn [trace fs] in *; pick_event Hp.
  all: unfold fs_add; rewrite ?elem_of_union, !elem_of_singleton; tauto.
Qed.

Lemma artifacts_left_behind_witness :
  (run Scenario.ffmpeg_fails Scenario.rows ∅ 7).1
    = Raises (Exception "FFmpeg error during WAV conversion: bad stream")
  ∧ filter (λ ev, is_remove ev = true)
           (trace (run Scenario.ffmpeg_fails Scenario.rows ∅ 7).2) = []
  ∧ Scenario.mp3 ∈ fs (run Scenario.ffmpeg_fails Scenario.rows ∅ 7).2
  ∧ ¬ artifacts_gone (run Scenario.ffmpeg_fails Scenario.rows ∅ 7).2.
Proof.
  assert (Hin : EvArtifact Scenario.mp3
                ∈ trace (run Scenario.ffmpeg_fails Scenario.rows ∅ 7).2).
  { apply (list_elem_of_lookup_2 _ 4). vm_compute. reflexivity. }
  destruct (artifacts_left_behind
              Scenario.ffmpeg_fails Scenario.rows ∅ 7 Scenario.job
              (Exception "FFmpeg error during WAV conversion: bad stream"))
    as [Hnone Hkept]; [vm_compute; reflexivity ..|].
  split; [vm_compute; reflexivity|].
  split; [exact Hnone|].
  split; [exact (Hkept _ Hin)|].
  intros Hgone. exact (Hgone _ Hin (Hkept _ Hin)).
Defined.

(** The sibling path.  When an execution returns and no removal raises,
    the files the stages produced (the downloaded audio and the WAV file)
    are not on local storage any more. *)
Theorem artifacts_removed_on_success env rows files job_id j0 r :
  rows !! job_id = Some j0 →
  (run env rows files job_id).1 = Returns r →
  (∀ p, os_remove_error env p = None) →
  artifacts_gone (run env rows files job_id).2.
Proof.
  intros Hj Hret Hrm. revert Hret. destruct env. cbn in Hrm.
  norm. rewrite Hj. norm. norm_cleanup.
  repeat (first [ rewrite Hrm
                | rewrite video_info_dict_title
                | exec_step ];
          norm; norm_cleanup).
  all: intros Hret; try discriminate Hret; try congruence.
  all: intros p Hp; cbn [trace fs] in *; pick_event Hp;
    auto using fs_mem_false, fs_del_gone, fs_del_stays_gone.
Qed.

Lemma artifacts_removed_witness :
  artifacts_gone (run Scenario.all_good Scenario.rows ∅ 7).2.
Proof.
  apply (artifacts_removed_on_success
           Scenario.all_good Scenario.rows ∅ 7 Scenario.job Scenario.payload).
  - vm_compute; reflexivity.
  - vm_compute; reflexivity.
  - intros p. reflexivity.
Defined.

(** ** The terminal record *)

(** C2.  A job picked up as [submit_analysis] created it (no result, no
    error message) ends every execution in a terminal state, [completed]
    or [failed]; its result is set exactly when it is [completed], its
    error message exactly when it is [failed]: never both, never
    neither. *)
Theorem terminal_job_has_result_xor_error env rows files job_id j0 :
  rows !! job_id = Some j0 →
  result j0 = None →
  error_message j0 = None →
  ∃ j, db (run env rows files job_id).2 !! job_id = Some j
       ∧ (status j = "completed" ∨ status j = "failed")
       ∧ (is_Some (result j) ↔ status j = "completed")
       ∧ (is_Some (error_message j) ↔ status j = "failed")
       ∧ ¬ (is_Some (result j) ∧ is_Some (error_message j))
       ∧ (is_Some (result j) ∨ is_Some (error_message j)).
Proof.
  intros Hj Hr He. destruct env. norm. rewrite Hj.
  exec_task video_info_dict_title cleanup_spec.
  all: eexists; split; [apply db_put_lookup|].
  all: cbn; rewrite ?Hr, ?He, <- !not_eq_None_Some.
  all: intuition (discriminate || congruence).
Qed.

Lemma terminal_job_witness :
  ∃ j, db (run Scenario.all_good Scenario.rows ∅ 7).2 !! 7 = Some j
       ∧ (status j = "completed" ∨ status j = "failed")
       ∧ (is_Some (result j) ↔ status j = "completed")
       ∧ (is_Some (error_message j) ↔ status j = "failed")
       ∧ ¬ (is_Some (result j) ∧ is_Some (error_message j))
       ∧ (is_Some (result j) ∨ is_Some (error_message j)).
Proof.
  apply (terminal_job_has_result_xor_error
           Scenario.all_good Scenario.rows ∅ 7 Scenario.job);
    vm_compute; reflexivity.
Defined.

(** ** The status state machine *)

(** C3.  For a job picked up in [pending], the first thing an execution
    does is commit [status = "processing"], before any stage is entered;
    from there the committed statuses only ever move along
    pending -> processing -> completed or failed: every change of status
    is one of these steps, and nothing follows a terminal status. *)
Theorem status_follows_the_state_machine env rows files job_id j0 :
  rows !! job_id = Some j0 →
  status j0 = "pending" →
  (∃ rest, trace (run env rows files job_id).2
           = EvCommit (set_status "processing" j0) :: rest)
  ∧ legal_history
      (status j0 :: (status <$> commits (trace (run env rows files job_id).2)))
    = true
  ∧ (∃ j, last (commits (trace (run env rows files job_id).2)) = Some j
          ∧ is_terminal (status j) = true
          ∧ db (run env rows files job_id).2 !! job_id = Some j).
Proof.
  intros Hj Hst. destruct env. norm. rewrite Hj.
  exec_task video_info_dict_title cleanup_spec.
  all: split; [eexists; reflexivity|].
  all: read_commits; rewrite Hst.
  all: split; [reflexivity|].
  all: eexists; split; [reflexivity|]; split; [reflexivity|apply db_put_lookup].
Qed.

Lemma status_state_machine_witness :
  legal_history
    (status Scenario.job
     :: (status <$> commits (trace (run Scenario.ffmpeg_fails Scenario.rows ∅ 7).2)))
  = true.
Proof.
  apply (status_follows_the_state_machine
           Scenario.ffmpeg_fails Scenario.rows ∅ 7 Scenario.job);
    vm_compute; reflexivity.
Defined.

(** ** The transcriber's model *)

(** On the success path the model is dropped after the transcription and
    before the analyser is called, and the transcriber ends without a
    model. *)
Lemma transcriber_released_on_success env rows files job_id j0 r :
  rows !! job_id = Some j0 →
  (run env rows files job_id).1 = Returns r →
  (model <$> whisper (run env rows files job_id).2) = Some None
  ∧ (∃ pre rest mid post,
       trace (run env rows files job_id).2 = (pre ++ EvUnloadModel :: rest)%list
       ∧ rest = (mid ++ EvCall Analyze :: post)%list
       ∧ EvCall Transcribe ∈ pre
       ∧ EvCall Analyze ∉ pre).
Proof.
  intros Hj. destruct env. norm. rewrite Hj.
  exec_task video_info_dict_title cleanup_spec.
  all: intros Hret; try discriminate Hret; clear Hret.
  all: split; [reflexivity|].
  all: do 4 eexists;
    split; [repeat first [apply split_here | apply split_later]|];
    split; [repeat first [apply split_here | apply split_later]|];
    split; [set_unfold; tauto | intros Hin; pick_event Hin].
Qed.

(** The same when the failure comes after the transcription: a raising
    analyser finds the model already dropped. *)
Lemma transcriber_released_when_analysis_fails env rows files job_id j0 e :
  rows !! job_id = Some j0 →
  (run env rows files job_id).1 = Raises e →
  EvCall Analyze ∈ trace (run env rows files job_id).2 →
  (model <$> whisper (run env rows files job_id).2) = Some None.
Proof.
  intros Hj. destruct env. norm. rewrite Hj.
  exec_task video_info_dict_title cleanup_spec.
  all: intros Hret; try discriminate Hret; clear Hret.
  all: intros Hin; try reflexivity; pick_event Hin.
Qed.

(** C4 fails on the code when the transcription itself fails.  Here the
    model loads and a soft time limit fires inside [model.transcribe]:
    the handler marks the job [failed] and re-raises, [unload_model] is
    never called, and the transcriber still holds its model when the task
    is left. *)
Theorem transcriber_left_loaded_on_timeout :
  (run Scenario.transcribe_times_out Scenario.rows ∅ 7).1
    = Raises SoftTimeLimitExceeded
  ∧ (status <$> db (run Scenario.transcribe_times_out Scenario.rows ∅ 7).2 !! 7)
    = Some "failed"
  ∧ (model <$> whisper (run Scenario.transcribe_times_out Scenario.rows ∅ 7).2)
    = Some (Some (mkModel "base" "cpu"))
  ∧ filter (λ e, is_commit e = false)
           (trace (run Scenario.transcribe_times_out Scenario.rows ∅ 7).2)
    = [EvCall GetVideoInfo; EvCall DownloadAudio; EvArtifact Scenario.mp3;
       EvCall ConvertToWav; EvArtifact Scenario.wav; EvCall Transcribe;
       EvLoadModel].
Proof. repeat split; vm_compute; reflexivity. Qed.

(** Nor is this particular to the scenario: whenever [model.transcribe]
    raises under a freshly loaded model, the task is left with the model
    held. *)
Lemma transcriber_left_loaded_when_transcription_fails
    env rows files job_id j0 e :
  rows !! job_id = Some j0 →
  (run env rows files job_id).1 = Raises e →
  EvLoadModel ∈ trace (run env rows files job_id).2 →
  EvUnloadModel ∉ trace (run env rows files job_id).2 →
  ∃ m, (model <$> whisper (run env rows files job_id).2) = Some (Some m).
Proof.
  intros Hj. destruct env. norm. rewrite Hj.
  exec_task video_info_dict_title cleanup_spec.
  all: intros Hret; try discriminate Hret; clear Hret.
  all: intros Hin Hout; try (eexists; reflexivity).
  all: try (pick_event Hin).
  all: exfalso; apply Hout; set_unfold; tauto.
Qed.

(** ** The order of the writes *)

(** C5, as the claim words it, fails: with every capability succeeding,
    the first row a poller can read shows [status = "processing"] and not
    yet the title; the processing entry is written before the title, not
    after it. *)
Lemma title_write_is_not_first :
  title_write_precedes_processing_entry (PyStr "A talk")
    (commits (trace (run Scenario.all_good Scenario.rows ∅ 7).2)) = false
  ∧ (video_title <$> commits (trace (run Scenario.all_good Scenario.rows ∅ 7).2))
    = [PyNone; PyStr "A talk"; PyStr "A talk"]
  ∧ (status <$> commits (trace (run Scenario.all_good Scenario.rows ∅ 7).2))
    = ["processing"; "processing"; "completed"].
Proof. repeat split; vm_compute; reflexivity. Qed.

(** C5, amended.  The commits of one execution are, in this order: the
    processing entry (the row as picked up, with [status = "processing"]);
    then, when the metadata was fetched, the title write (the same row
    with the title); then one terminal write, which carries that title.
    When the metadata fetch fails there are just the processing entry and
    the [failed] write.  So a terminal write is never the first write: a
    poller cannot see it before the processing entry. *)
Theorem writes_are_ordered env rows files job_id j0 :
  rows !! job_id = Some j0 →
  let cs := commits (trace (run env rows files job_id).2) in
  let entry := set_status "processing" j0 in
  ((∃ jT, cs = [entry; jT] ∧ status jT = "failed")
   ∨ (∃ t jT, cs = [entry; set_video_title t entry; jT]
              ∧ video_title jT = t ∧ is_terminal (status jT) = true))
  ∧ (∀ i j, cs !! i = Some j → is_terminal (status j) = true → (0 < i)%nat).
Proof.
  intros Hj. destruct env. norm. rewrite Hj.
  exec_task video_info_dict_title cleanup_spec.
  all: read_commits.
  all: split;
    [ first [ left; eexists; split; reflexivity
            | right; do 2 eexists; split; [reflexivity|]; split; reflexivity ]
    | intros [|i] j Hi Ht; [injection Hi as <-; discriminate Ht | lia] ].
Qed.

Lemma writes_are_ordered_witness :
  Scenario.rows !! 7 = Some Scenario.job
  ∧ ((∃ jT, commits (trace (run Scenario.all_good Scenario.rows ∅ 7).2)
            = [set_status "processing" Scenario.job; jT]
            ∧ status jT = "failed")
     ∨ (∃ t jT, commits (trace (run Scenario.all_good Scenario.rows ∅ 7).2)
                = [set_status "processing" Scenario.job;
                   set_video_title t (set_status "processing" Scenario.job);
                   jT]
                ∧ video_title jT = t ∧ is_terminal (status jT) = true)).
Proof.
  assert (H : Scenario.rows !! 7 = Some Scenario.job)
    by (vm_compute; reflexivity).
  split; [exact H|].
  exact (proj1 (writes_are_ordered
                  Scenario.all_good Scenario.rows ∅ 7 Scenario.job H)).
Defined.

(** ** Partial progress *)

(** C6.  When the metadata fetch succeeds and the execution then fails,
    the title was committed right after the fetch, before the next stage
    was entered, and the [failed] row still carries it: the handler
    writes status, error message and completion time, never the title.
    The title is the [title] of yt-dlp's answer ([None] when it has
    none). *)
Theorem title_survives_later_failure env rows files job_id j0 info descr e :
  rows !! job_id = Some j0 →
  os_makedirs env (TEMP_DIR env) = None →
  extract_info env (youtube_url j0) false = Returns info →
  description_excerpt info = Returns descr →
  (run env rows files job_id).1 = Raises e →
  let entry := set_status "processing" j0 in
  let titled := set_video_title (dict_get info "title") entry in
  (∃ rest, trace (run env rows files job_id).2
           = EvCommit entry :: EvCall GetVideoInfo :: EvCommit titled :: rest)
  ∧ (∃ j, db (run env rows files job_id).2 !! job_id = Some j
          ∧ status j = "failed"
          ∧ video_title j = dict_get info "title"
          ∧ error_message j = Some (exn_msg e)
          ∧ result j = result j0).
Proof.
  intros Hj Hmk Hinfo Hdescr. destruct env. cbn in Hmk, Hinfo.
  norm. rewrite Hj. norm. rewrite Hmk. norm. rewrite Hinfo. norm.
  rewrite Hdescr.
  exec_task video_info_dict_title cleanup_spec.
  all: intros Hraise; try discriminate Hraise; injection Hraise as <-.
  all: rewrite ?video_info_title_default.
  all: split; [eexists; reflexivity|].
  all: eexists; split; [apply db_put_lookup|]; cbn;
    rewrite ?video_info_title_default; done.
Qed.

Lemma title_survives_later_failure_witness :
  ∃ j, db (run Scenario.ffmpeg_fails Scenario.rows ∅ 7).2 !! 7 = Some j
       ∧ status j = "failed"
       ∧ video_title j = PyStr "A talk"
       ∧ error_message j = Some "FFmpeg error during WAV conversion: bad stream"
       ∧ result j = None.
Proof.
  apply (title_survives_later_failure
           Scenario.ffmpeg_fails Scenario.rows ∅ 7 Scenario.job Scenario.info
           (PyStr "about things")
           (Exception "FFmpeg error during WAV conversion: bad stream"));
    vm_compute; reflexivity.
Defined.

(** ** Pickup of an unknown job *)

(** C7.  When the job id is not in the table, the task raises
    [ValueError("Job <id> not found")] before its [try] block: the table
    is left exactly as it was (no row created, no row changed), nothing
    is committed, no stage is entered and no file is touched. *)
Theorem pickup_of_unknown_job_writes_nothing env rows files job_id :
  rows !! job_id = None →
  (run env rows files job_id).1
    = Raises (ValueError ("Job " +:+ pretty job_id +:+ " not found"))
  ∧ db (run env rows files job_id).2 = rows
  ∧ fs (run env rows files job_id).2 = files
  ∧ trace (run env rows files job_id).2 = [].
Proof.
  intros Hnone. destruct env. norm. rewrite Hnone. norm. done.
Qed.

Lemma pickup_of_unknown_job_witness :
  Scenario.rows !! 8 = None
  ∧ (run Scenario.all_good Scenario.rows ∅ 8).1
      = Raises (ValueError "Job 8 not found")
  ∧ db (run Scenario.all_good Scenario.rows ∅ 8).2 = Scenario.rows.
Proof.
  assert (H : Scenario.rows !! 8 = None) by (vm_compute; reflexivity).
  split; [exact H|].
  destruct (pickup_of_unknown_job_writes_nothing
              Scenario.all_good Scenario.rows ∅ 8 H) as (Ho & Hdb & _).
  split; [exact Ho | exact Hdb].
Defined.

(** ** The completed record *)

(** C8.  When an execution returns, what it returns and stores is the
    payload built from the stage outputs: the metadata dictionary, the
    transcription (text, language, segments), the analyser's verdict and
    the time of aggregation.  The row the table holds afterwards has that
    payload as its result, [status = "completed"] and the completion
    time; the three reach the table in one commit: the commits before it
    are the processing entry and the title write, which carry none of the
    three.  No removal is attempted before that commit, and nothing but
    removals happens after it. *)
Theorem completed_result_is_the_payload env rows files job_id j0 r :
  rows !! job_id = Some j0 →
  (run env rows files job_id).1 = Returns r →
  ∃ info descr wav_path heard verdict pre final post,
    extract_info env (youtube_url j0) false = Returns info
    ∧ description_excerpt info = Returns descr
    ∧ model_transcribe env wav_path = Returns heard
    ∧ analyze_content env (raw_text heard) (video_info_dict info descr)
      = Returns verdict
    (* the payload, as a whole and field by field *)
    ∧ r = mkResult (video_info_dict info descr)
                   (mkTranscription
                      (raw_text heard)
                      (default "unknown" (raw_language heard))
                      (keep_segment <$> default [] (raw_segments heard)))
                   verdict
                   (isoformat env (utcnow_at env 0))
    ∧ video_info r = video_info_dict info descr
    ∧ text (transcription r) = raw_text heard
    ∧ language (transcription r) = default "unknown" (raw_language heard)
    ∧ segments (transcription r)
      = keep_segment <$> default [] (raw_segments heard)
    ∧ analysis r = verdict
    ∧ processed_at r = isoformat env (utcnow_at env 0)
    (* the row that is stored *)
    ∧ db (run env rows files job_id).2 !! job_id = Some final
    ∧ result final = Some r
    ∧ status final = "completed"
    ∧ completed_at final = Some (utcnow_at env 1)
    ∧ error_message final = error_message j0
    ∧ video_title final = dict_get info "title"
    ∧ youtube_url final = youtube_url j0
    ∧ created_at final = created_at j0
    ∧ final = set_completed_at (utcnow_at env 1)
                (set_status "completed"
                   (set_result r
                      (set_video_title (dict_get info "title")
                         (set_status "processing" j0))))
    (* one commit carries the three *)
    ∧ trace (run env rows files job_id).2 = (pre ++ EvCommit final :: post)%list
    ∧ commits pre
      = [set_status "processing" j0;
         set_video_title (dict_get info "title") (set_status "processing" j0)]
    ∧ Forall (λ j, status j = "processing"
                   ∧ result j = result j0
                   ∧ completed_at j = completed_at j0) (commits pre)
    ∧ Forall (λ e, is_remove e = false) pre
    ∧ Forall (λ e, is_remove e = true) post.
Proof.
  intros Hj. destruct env. norm. rewrite Hj.
  exec_task video_info_dict_title cleanup_spec.
  all: intros Hret; try discriminate Hret; injection Hret as <-.
  all: do 8 eexists.
  all: do 4 (split; [first [eassumption | reflexivity]|]).
  all: do 7 (split; [reflexivity|]).
  all: split; [apply db_put_lookup|].
  all: do 8 (split; [reflexivity|]).
  all: split; [repeat first [apply split_here | apply split_later]|].
  all: split; [reflexivity|].
  all: split; [cbn [commits]; repeat constructor|].
  all: split; [repeat constructor | assumption].
Qed.

Lemma completed_result_witness :
  ∃ final,
    db (run Scenario.all_good Scenario.rows ∅ 7).2 !! 7 = Some final
    ∧ result final = Some Scenario.payload
    ∧ status final = "completed"
    ∧ completed_at final = Some 101
    ∧ error_message final = None
    ∧ video_title final = PyStr "A talk".
Proof.
  destruct (completed_result_is_the_payload
              Scenario.all_good Scenario.rows ∅ 7 Scenario.job Scenario.payload)
    as (info & descr & wav_path & heard & verdict & pre & final & post
        & Hinfo & _ & _ & _ & _ & _ & _ & _ & _ & _ & _
        & Hdb & Hres & Hst & Hdone & Herr & Htitle & _);
    [vm_compute; reflexivity ..|].
  exists final. injection Hinfo as <-.
  repeat split; assumption.
Defined.

(** ** Releasing the transcriber *)

(** C9.  [unload_model] on a transcriber that never loaded a model
    returns without raising and leaves the whole world, the transcriber
    included, as it was; and on any transcriber a second call right after
    the first returns without raising and changes nothing any more. *)
Theorem unload_model_idempotent env w size dev t :
  unload_model env (with_whisper (Some (mkTranscriber size None dev)) w)
    = (Returns tt, with_whisper (Some (mkTranscriber size None dev)) w)
  ∧ (unload_model env (with_whisper (Some t) w)).1 = Returns tt
  ∧ unload_model env (unload_model env (with_whisper (Some t) w)).2
    = (Returns tt, (unload_model env (with_whisper (Some t) w)).2)
  ∧ (model <$> whisper (unload_model env (with_whisper (Some t) w)).2)
    = Some None.
Proof.
  destruct env, w as [d s f wt c tr], t as [sz [m|] dv]; norm;
    repeat (exec_step; norm); done.
Qed.

(** ** Removal errors on the success path *)

(** C10.  Take an execution that returns, and let [os.remove] behave in
    any other way, raising included.  The execution still returns the
    same result and leaves the same table: the job's row is [completed],
    with that result and its completion time, and no [failed] row was
    ever committed; the terminal commit is done before [cleanup] starts
    and [cleanup] swallows what a removal raises. *)
Theorem removal_error_keeps_completed_record env rm rows files job_id j0 r :
  rows !! job_id = Some j0 →
  (run env rows files job_id).1 = Returns r →
  (run (with_os_remove_error rm env) rows files job_id).1 = Returns r
  ∧ db (run (with_os_remove_error rm env) rows files job_id).2
    = db (run env rows files job_id).2
  ∧ (∃ j, db (run (with_os_remove_error rm env) rows files job_id).2 !! job_id
          = Some j
          ∧ status j = "completed"
          ∧ result j = Some r
          ∧ completed_at j = Some (utcnow_at env 1)
          ∧ error_message j = error_message j0)
  ∧ Forall (λ j, status j ≠ "failed")
           (commits (trace (run (with_os_remove_error rm env) rows files job_id).2)).
Proof.
  intros Hj. destruct env. norm. rewrite Hj.
  exec_task video_info_dict_title cleanup_spec.
  all: intros Hret; try discriminate Hret; injection Hret as <-.
  all: split; [reflexivity|]; split; [reflexivity|].
  all: split; [eexists; split; [apply db_put_lookup|done] |].
  all: read_commits; repeat constructor; discriminate.
Qed.

Lemma removal_error_witness :
  (run Scenario.remove_denied Scenario.rows ∅ 7).1 = Returns Scenario.payload
  ∧ db (run Scenario.remove_denied Scenario.rows ∅ 7).2
    = db (run Scenario.all_good Scenario.rows ∅ 7).2
  ∧ (∃ j, db (run Scenario.remove_denied Scenario.rows ∅ 7).2 !! 7 = Some j
          ∧ status j = "completed"
          ∧ result j = Some Scenario.payload
          ∧ completed_at j = Some 101
          ∧ error_message j = None)
  ∧ Forall (λ j, status j ≠ "failed")
           (commits (trace (run Scenario.remove_denied Scenario.rows ∅ 7).2)).
Proof.
  apply (removal_error_keeps_completed_record
           Scenario.all_good (λ _, Some (Exn "PermissionError" "denied"))
           Scenario.rows ∅ 7 Scenario.job Scenario.payload);
    vm_compute; reflexivity.
Defined.

(** In that scenario the first removal was attempted and refused, and the
    second was then never attempted. *)
Example removal_denied_trace :
  filter (λ e, is_remove e = true)
         (trace (run Scenario.remove_denied Scenario.rows ∅ 7).2)
  = [EvRemove Scenario.mp3 false].
Proof. vm_compute. reflexivity. Qed.

(** ** More supporting lemmas *)




Lemma artifacts_cons e tr :
  artifacts (e :: tr)
  = match e with EvArtifact p => p :: artifacts tr | _ => artifacts tr end.
Proof. by destruct e. Qed.

Lemma artifacts_removes evs :
  Forall (λ e, is_remove e = true) evs → artifacts evs = [].
Proof.
  induction 1 as [|e evs He _ IH]; [done|].
  destruct e; try discriminate He. exact IH.
Qed.

Lemma elem_of_artifacts p tr : EvArtifact p ∈ tr → p ∈ artifacts tr.
Proof.
  induction tr as [|e tr IH]; [by intros ?%elem_of_nil|].
  rewrite artifacts_cons. intros [<-|Hin]%elem_of_cons; [by left|].
  destruct e; auto. right. auto.
Qed.

Ltac read_artifacts :=
  repeat (rewrite artifacts_cons; cbv beta iota);
  repeat match goal with
         | H : Forall (λ e, is_remove e = true) ?evs |- context [artifacts ?evs] =>
             rewrite (artifacts_removes evs H)
         end;
  change (artifacts []) with (@nil string).

Lemma db_put_other k k' j rows : k' ≠ k → db_put k j rows !! k' = rows !! k'.
Proof. intros H. unfold db_put. by rewrite lookup_insert_ne. Qed.

Lemma elem_of_fs_add p q files : p ∈ fs_add q files ↔ p = q ∨ p ∈ files.
Proof. unfold fs_add. by rewrite elem_of_union, elem_of_singleton. Qed.

Lemma elem_of_fs_del p q files : p ∈ fs_del q files ↔ p ∈ files ∧ p ≠ q.
Proof. unfold fs_del. by rewrite elem_of_difference, elem_of_singleton. Qed.

Lemma append_cons x (a b : string) : String x a +:+ b = String x (a +:+ b).
Proof. reflexivity. Qed.

Lemma append_nil (b : string) : "" +:+ b = b.
Proof. reflexivity. Qed.

Lemma append_nil_r (a : string) : a +:+ "" = a.
Proof. induction a as [|x a IH]; [done|]. by rewrite append_cons, IH. Qed.

Lemma append_assoc (a b c : string) : (a +:+ b) +:+ c = a +:+ (b +:+ c).
Proof. induction a as [|x a IH]; [done|]. by rewrite !append_cons, IH. Qed.

Lemma append_cancel_l (a b c : string) : a +:+ b = a +:+ c → b = c.
Proof.
  induction a as [|x a IH]; [done|]. rewrite !append_cons. intros [=]. auto.
Qed.

Lemma string_last_append (a b : string) :
  b ≠ "" → string_last (a +:+ b) = string_last b.
Proof.
  intros Hb. induction a as [|x a IH]; [done|].
  rewrite append_cons. cbn [string_last]. rewrite IH.
  destruct (a +:+ b) eqn:E; [|done].
  destruct a; [by rewrite append_nil in E | by rewrite append_cons in E].
Qed.

(** Where [rfind_from] ends up: at [found], or on an occurrence. *)
Lemma rfind_from_spec c p : ∀ i found,
  rfind_from c p i found = found
  ∨ ((i ≤ rfind_from c p i found < i + Z.of_nat (String.length p))%Z
     ∧ String.get (Z.to_nat (rfind_from c p i found - i)) p = Some c).
Proof.
  induction p as [|x p IH]; intros i found; [by left|].
  cbn [rfind_from String.length].
  destruct (IH (i + 1) (if Ascii.eqb x c then i else found)) as [E|[Hr Hg]].
  - rewrite E. destruct (Ascii.eqb_spec x c) as [->|_]; [right|by left].
    split; [lia|]. by rewrite Z.sub_diag.
  - right. split; [lia|].
    replace (Z.to_nat (rfind_from c p (i + 1) (if Ascii.eqb x c then i else found) - i))
      with (S (Z.to_nat (rfind_from c p (i + 1) (if Ascii.eqb x c then i else found) - (i + 1))))
      by lia.
    exact Hg.
Qed.

Lemma rfind_range c p :
  rfind c p = -1
  ∨ ((0 ≤ rfind c p)%Z ∧ String.get (Z.to_nat (rfind c p)) p = Some c).
Proof.
  unfold rfind. destruct (rfind_from_spec c p 0 (-1)) as [E|[Hr Hg]]; [by left|].
  right. rewrite Z.sub_0_r in Hg. split; [lia | exact Hg].
Qed.





(** Three hundred times the two-byte character U+00E9 are 300 characters
    and pass the cut whole; 600 one-byte characters are cut to 500. *)
Example excerpt_counts_characters :
  let accented := String "195"%char (String "169"%char "") in
  let s := foldr (λ _ acc, accented +:+ acc) "" (seq 0 300) in
  let plain := foldr (λ _ acc, String "a"%char acc) "" (seq 0 600) in
  String.length s = 600%nat
  ∧ py_len s = 300%nat
  ∧ py_slice_to 500 s = s
  ∧ String.length (py_slice_to 500 plain) = 500%nat.
Proof. vm_compute. done. Qed.

Lemma substring_drop n : ∀ s, String.substring 0 n s +:+ string_drop n s = s.
Proof.
  induction n as [|n IH]; intros [|x s]; cbn [String.substring string_drop];
    rewrite ?append_nil, ?append_cons; try done.
  by rewrite IH.
Qed.

Lemma substring_prefix_length n : ∀ s,
  String.length (String.substring 0 n s) = (n `min` String.length s)%nat.
Proof.
  induction n as [|n IH]; intros [|x s]; cbn; try done.
  by rewrite IH.
Qed.

Lemma substring_short n : ∀ s,
  (String.length s ≤ n)%nat → String.substring 0 n s = s.
Proof.
  induction n as [|n IH]; intros [|x s] Hn; cbn in *; try done; try lia.
  rewrite IH; [done|lia].
Qed.

Lemma string_drop_all s : string_drop (String.length s) s = "".
Proof. induction s; cbn; auto. Qed.

Lemma string_drop_get n c : ∀ s,
  String.get n s = Some c → ∃ e, string_drop n s = String c e.
Proof.
  induction n as [|n IH]; intros [|x s] Hg; cbn in *; try done.
  - injection Hg as ->. eauto.
  - auto.
Qed.

Lemma get_lt n : ∀ s c, String.get n s = Some c → (n < String.length s)%nat.
Proof.
  induction n as [|n IH]; intros [|x s] c Hg; cbn in *; try done; try lia.
  apply IH in Hg. lia.
Qed.

(** [splitext] splits: root and extension make up the path again, and
    the extension is empty or starts with a dot. *)
Lemma splitext_parts p :
  splitext_root p +:+ splitext_ext p = p
  ∧ (splitext_ext p = "" ∨ ∃ e, splitext_ext p = String "."%char e).
Proof.
  unfold splitext_ext, splitext_root.
  destruct (rfind_range "/"%char p) as [Hsep|[Hsep _]];
    destruct (rfind_range "."%char p) as [Hdot|[Hdot Hg]];
    destruct (bool_decide _) eqn:Hlt;
    try (apply bool_decide_eq_true in Hlt; lia);
    try (rewrite string_drop_all, append_nil_r; by auto).
  all: destruct (string_existsb _ _);
    [|rewrite string_drop_all, append_nil_r; by auto].
  all: pose proof (get_lt _ _ _ Hg) as Hlen;
    rewrite substring_prefix_length, Nat.min_l by lia;
    (split; [apply substring_drop|]); right; by apply string_drop_get.
Qed.

(** [os.path.join] always ends in its second argument. *)
Lemma os_path_join_ends a b : ∃ y, os_path_join a b = y +:+ b.
Proof.
  unfold os_path_join.
  destruct b as [|x b]; [|destruct (Ascii.eqb_spec x "/"%char) as [->|Hx]].
  - destruct a as [|z a]; [by exists ""|].
    destruct (String.eqb _ _); [by eexists|].
    exists (String z a +:+ "/"). by rewrite append_assoc.
  - by exists "".
  - assert (E : ∀ (k1 k2 : string), match String x b with
                 | String "/"%char _ => k1 | _ => k2 end = k2).
    { intros k1 k2. by destruct x as [[] [] [] [] [] [] [] []]. }
    rewrite E. destruct a as [|z a]; [by exists ""|].
    destruct (String.eqb _ _); [by eexists|].
    exists (String z a +:+ "/"). by rewrite append_assoc.
Qed.

(** A default output path [root + suffix] coincides with the input
    exactly when the suffix is the input's extension. *)
Lemma default_output_is_input p suffix :
  splitext_root p +:+ suffix = p ↔ splitext_ext p = suffix.
Proof.
  destruct (splitext_parts p) as [Hp _]. split.
  - intros E. rewrite <- Hp in E at 2. by apply append_cancel_l in E.
  - by intros <-.
Qed.

Lemma mp3_is_not_converted_in_place temp_dir video_id :
  let audio_path := os_path_join temp_dir (video_id +:+ ".mp3") in
  splitext_root audio_path +:+ ".wav" ≠ audio_path.
Proof.
  intros a E.
  assert (H1 : string_last a = Some "v"%char).
  { rewrite <- E. by rewrite string_last_append. }
  destruct (os_path_join_ends temp_dir (video_id +:+ ".mp3")) as [y Hy].
  fold a in Hy. rewrite Hy, <- append_assoc, string_last_append in H1; done.
Qed.

Lemma in_take {A} (x : A) n l : x ∈ take n l → x ∈ l.
Proof. intros H. eapply elem_of_sublist; [exact H | apply sublist_take]. Qed.

#[local] Instance newer_or_same_total nulls_first :
  Total (newer_or_same nulls_first).
Proof.
  intros a b. unfold newer_or_same.
  destruct nulls_first, (created_at a.2), (created_at b.2); try tauto; lia.
Qed.

#[local] Instance newer_or_same_trans nulls_first :
  Transitive (newer_or_same nulls_first).
Proof.
  intros a b c. unfold newer_or_same.
  destruct nulls_first, (created_at a.2), (created_at b.2), (created_at c.2);
    try done; lia.
Qed.

Lemma status_response_ok isoformat k j r :
  status_response isoformat k j = Ok200 r →
  sr_job_id r = k ∧ sr_status r = status j.
Proof.
  unfold status_response. destruct (created_at j); [|done].
  by intros [= <-].
Qed.

Lemma status_responses_ok isoformat : ∀ jobs rs,
  status_responses isoformat jobs = Ok200 rs →
  length rs = length jobs
  ∧ ∀ r, r ∈ rs →
      ∃ row, row ∈ jobs ∧ status_response isoformat row.1 row.2 = Ok200 r.
Proof.
  induction jobs as [|row rest IH]; intros rs; cbn [status_responses].
  { intros [= <-]. split; [done|]. by intros r ?%elem_of_nil. }
  destruct (status_response isoformat row.1 row.2) as [r0| |] eqn:E; [|done..].
  destruct (status_responses isoformat rest) as [rs0| |]; [|done..].
  intros [= <-]. destruct (IH rs0 eq_refl) as [Hlen Hin].
  split; [cbn; by rewrite Hlen|].
  intros r [->|Hr]%elem_of_cons.
  - exists row. split; [by left | done].
  - destruct (Hin r Hr) as (row' & ? & ?). exists row'. split; [by right | done].
Qed.

Lemma status_responses_invalid isoformat : ∀ jobs k j,
  (k, j) ∈ jobs → created_at j = None →
  status_responses isoformat jobs = ValidationError.
Proof.
  induction jobs as [|row rest IH]; intros k j Hin Hc.
  { by apply elem_of_nil in Hin. }
  cbn [status_responses]. apply elem_of_cons in Hin as [<-|Hin].
  - unfold status_response. cbn. by rewrite Hc.
  - rewrite (IH k j Hin Hc).
    unfold status_response. by destruct (created_at row.2).
Qed.

Lemma video_info_dict_dom info descr :
  dom (video_info_dict info descr) = video_info_keys.
Proof.
  unfold video_info_dict, video_info_keys.
  rewrite !dom_insert_L, dom_empty_L.
  apply set_eq. intros k. rewrite !elem_of_union, !elem_of_singleton.
  rewrite elem_of_empty. tauto.
Qed.

(** Every commit but the last shows the job in [processing], with error
    message, completion time and result as they were. *)
Lemma earlier_commits_are_processing env rows files job_id j0 pre j post :
  rows !! job_id = Some j0 →
  commits (trace (run env rows files job_id).2) = (pre ++ j :: post)%list →
  post ≠ [] →
  status j = "processing"
  ∧ error_message j = error_message j0
  ∧ completed_at j = completed_at j0
  ∧ created_at j = created_at j0.
Proof.
  intros Hj. destruct env. norm. rewrite Hj.
  exec_task video_info_dict_title cleanup_spec.
  all: read_commits.
  all: intros Hc Hpost;
    destruct pre as [|? [|? [|? pre]]]; simplify_eq/=; try done.
  all: by destruct pre.
Qed.

Lemma task_ok_step self op : task_ok self → task_ok (task_step_op self op).
Proof.
  destruct self as [[s|] n cl]; intros (Hnd & Hlt & Hdb); destruct op; cbn in *;
    unfold task_ok; cbn.
  - done.
  - destruct Hdb as (Hs & Hns & Hall). split; [by constructor|]. split.
    + intros s' [->|?]%elem_of_cons; auto.
    + intros s' Hs'. destruct (decide (s' = s)) as [->|Hne]; [left|right; auto].
  - split; [done|]. split; [intros s Hs; apply Hlt in Hs; lia|].
    split; [lia|]. split; [intros Hn%Hlt; lia|].
    intros s' Hs' Hne. apply Hdb. lia.
  - done.
Qed.

Lemma task_life_ok ops : task_ok (task_life ops).
Proof.
  unfold task_life. induction ops as [|op ops IH] using rev_ind.
  - split; [constructor|]. split; [by intros ? ?%elem_of_nil|].
    cbn. intros s' Hs'. lia.
  - rewrite foldl_app. cbn. by apply task_ok_step.
Qed.

(** ** The task: order, frame and failure *)


(** X2.  An execution writes to the row of its own job only: every other
    row of the table is afterwards what it was. *)
Theorem task_leaves_other_rows_alone env rows files job_id k :
  k ≠ job_id →
  db (run env rows files job_id).2 !! k = rows !! k.
Proof.
  intros Hk. destruct env. norm. destruct (rows !! job_id) as [j0|] eqn:Hj.
  2:{ norm. reflexivity. }
  exec_task video_info_dict_title cleanup_spec.
  all: by rewrite !db_put_other.
Qed.

Lemma task_leaves_other_rows_alone_witness :
  8 ≠ 7
  ∧ db (run Scenario.all_good Cases.three_rows ∅ 7).2 !! 8
    = Cases.three_rows !! 8.
Proof.
  assert (H : 8 ≠ 7) by lia.
  split; [exact H|].
  exact (task_leaves_other_rows_alone
           Scenario.all_good Cases.three_rows ∅ 7 8 H).
Defined.

(** X3.  Whatever happens, the job's row is still there afterwards, with
    the URL and the creation time it had. *)
Theorem task_keeps_url_and_creation_time env rows files job_id j0 :
  rows !! job_id = Some j0 →
  ∃ j, db (run env rows files job_id).2 !! job_id = Some j
       ∧ youtube_url j = youtube_url j0
       ∧ created_at j = created_at j0.
Proof.
  intros Hj. destruct env. norm. rewrite Hj.
  exec_task video_info_dict_title cleanup_spec.
  all: eexists; split; [apply db_put_lookup | done].
Qed.

Lemma task_keeps_url_and_creation_time_witness :
  ∃ j, db (run Scenario.ffmpeg_fails Scenario.rows ∅ 7).2 !! 7 = Some j
       ∧ youtube_url j = "https://youtu.be/abc"
       ∧ created_at j = Some 50.
Proof.
  apply (task_keeps_url_and_creation_time
           Scenario.ffmpeg_fails Scenario.rows ∅ 7 Scenario.job).
  vm_compute; reflexivity.
Defined.

(** X4.  When the task raises for a job it found, the exception that
    leaves it is the one it recorded: the row is [failed], its error
    message is [str(e)], its completion time is the clock's first
    reading, its result is untouched, and that row is the last commit. *)
Theorem failure_is_recorded_and_reraised env rows files job_id j0 e :
  rows !! job_id = Some j0 →
  (run env rows files job_id).1 = Raises e →
  ∃ j, db (run env rows files job_id).2 !! job_id = Some j
       ∧ status j = "failed"
       ∧ error_message j = Some (exn_msg e)
       ∧ completed_at j = Some (utcnow_at env 0)
       ∧ result j = result j0
       ∧ last (commits (trace (run env rows files job_id).2)) = Some j.
Proof.
  intros Hj. destruct env. norm. rewrite Hj.
  exec_task video_info_dict_title cleanup_spec.
  all: intros Hraise; try discriminate Hraise; injection Hraise as <-.
  all: eexists; split; [apply db_put_lookup | done].
Qed.

Lemma failure_is_recorded_witness :
  ∃ j, db (run Scenario.transcribe_times_out Scenario.rows ∅ 7).2 !! 7 = Some j
       ∧ status j = "failed"
       ∧ error_message j = Some "SoftTimeLimitExceeded()"
       ∧ completed_at j = Some 100
       ∧ result j = None
       ∧ last (commits (trace (run Scenario.transcribe_times_out
                                   Scenario.rows ∅ 7).2)) = Some j.
Proof.
  apply (failure_is_recorded_and_reraised
           Scenario.transcribe_times_out Scenario.rows ∅ 7 Scenario.job
           SoftTimeLimitExceeded);
    vm_compute; reflexivity.
Defined.

(** X5.  The task removes no file but the ones its stages returned:
    every [os.remove] it calls is on a path a stage returned, and it
    calls none unless it goes on to return with the row [completed]. *)
Theorem task_removes_only_its_artifacts env rows files job_id p ok :
  EvRemove p ok ∈ trace (run env rows files job_id).2 →
  p ∈ artifacts (trace (run env rows files job_id).2)
  ∧ (∃ r, (run env rows files job_id).1 = Returns r)
  ∧ ∃ j, db (run env rows files job_id).2 !! job_id = Some j
         ∧ status j = "completed".
Proof.
  destruct env. norm. destruct (rows !! job_id) as [j0|] eqn:Hj.
  2:{ norm. by intros ?%elem_of_nil. }
  norm. norm_cleanup.
  repeat (first [ rewrite video_info_dict_title | exec_step ];
          norm; norm_cleanup).
  all: cbn [trace db fst snd]; intros Hp; pick_event Hp.
  all: read_artifacts.
  all: split; [rewrite !elem_of_cons; tauto|].
  all: split; [by eexists|].
  all: eexists; split; [apply db_put_lookup | reflexivity].
Qed.

Lemma task_removes_only_its_artifacts_witness :
  Scenario.wav ∈ artifacts (trace (run Scenario.all_good Scenario.rows ∅ 7).2)
  ∧ (∃ r, (run Scenario.all_good Scenario.rows ∅ 7).1 = Returns r)
  ∧ ∃ j, db (run Scenario.all_good Scenario.rows ∅ 7).2 !! 7 = Some j
         ∧ status j = "completed".
Proof.
  apply (task_removes_only_its_artifacts
           Scenario.all_good Scenario.rows ∅ 7 Scenario.wav true).
  apply (list_elem_of_lookup_2 _ 13). vm_compute. reflexivity.
Defined.

(** X6.  Both removals of the cleanup sit in one [try]: when the removal
    of the downloaded audio raises, the removal of the WAV file is never
    attempted, and both files are still on local storage when the task
    returns. *)
Theorem refused_audio_removal_leaves_both_files
    env rows files job_id j0 r info e :
  rows !! job_id = Some j0 →
  (run env rows files job_id).1 = Returns r →
  extract_info env (youtube_url j0) true = Returns info →
  let audio_path :=
    os_path_join (TEMP_DIR env) (py_str (dict_get info "id") +:+ ".mp3") in
  let wav_path := splitext_root audio_path +:+ ".wav" in
  os_remove_error env audio_path = Some e →
  audio_path ∈ fs (run env rows files job_id).2
  ∧ wav_path ∈ fs (run env rows files job_id).2
  ∧ filter (λ ev, is_remove ev = true) (trace (run env rows files job_id).2)
    = [EvRemove audio_path false].
Proof.
  intros Hj Hret Hinfo a w Hrm. subst a w. revert Hret.
  destruct env. cbn in Hinfo, Hrm |- *.
  norm. rewrite Hj. norm. norm_cleanup.
  repeat (first [ rewrite Hinfo | rewrite Hrm
                | rewrite video_info_dict_title
                | exec_step ];
          norm; norm_cleanup).
  all: intros Hret; try discriminate Hret; try congruence.
  all: cbn [trace fs].
  all: try match goal with
            | H : fs_mem _ _ = false |- _ =>
                apply fs_mem_false in H; exfalso; apply H;
                rewrite !elem_of_fs_add; tauto
            end.
  all: rewrite !elem_of_fs_add; split; [tauto|split; [tauto|reflexivity]].
Qed.

Lemma refused_audio_removal_witness :
  Scenario.mp3 ∈ fs (run Scenario.remove_denied Scenario.rows ∅ 7).2
  ∧ Scenario.wav ∈ fs (run Scenario.remove_denied Scenario.rows ∅ 7).2
  ∧ filter (λ ev, is_remove ev = true)
           (trace (run Scenario.remove_denied Scenario.rows ∅ 7).2)
    = [EvRemove Scenario.mp3 false].
Proof.
  apply (refused_audio_removal_leaves_both_files
           Scenario.remove_denied Scenario.rows ∅ 7 Scenario.job
           Scenario.payload Scenario.info (Exn "PermissionError" "denied"));
    vm_compute; reflexivity.
Defined.

(** X7.  A description that yt-dlp reports as [None] (the key is there,
    so the default [''] does not apply) cannot be sliced: the metadata
    stage raises [TypeError], the job ends [failed] with that message and
    with the title it had, nothing is downloaded and no file appears. *)
Theorem null_description_fails_the_job env rows files job_id j0 info :
  rows !! job_id = Some j0 →
  os_makedirs env (TEMP_DIR env) = None →
  extract_info env (youtube_url j0) false = Returns info →
  info !! "description" = Some PyNone →
  (run env rows files job_id).1
    = Raises (TypeError "'NoneType' object is not subscriptable")
  ∧ calls (trace (run env rows files job_id).2) = [GetVideoInfo]
  ∧ fs (run env rows files job_id).2 = files
  ∧ ∃ j, db (run env rows files job_id).2 !! job_id = Some j
         ∧ status j = "failed"
         ∧ error_message j = Some "'NoneType' object is not subscriptable"
         ∧ video_title j = video_title j0.
Proof.
  intros Hj Hmk Hinfo Hdescr. destruct env. cbn in Hmk, Hinfo.
  norm. rewrite Hj. norm. rewrite Hmk. norm. rewrite Hinfo. norm.
  unfold description_excerpt, dict_get_default. rewrite Hdescr. norm.
  repeat split. eexists; split; [apply db_put_lookup | done].
Qed.

Lemma null_description_witness :
  (run Cases.null_description Scenario.rows ∅ 7).1
    = Raises (TypeError "'NoneType' object is not subscriptable")
  ∧ calls (trace (run Cases.null_description Scenario.rows ∅ 7).2)
    = [GetVideoInfo]
  ∧ fs (run Cases.null_description Scenario.rows ∅ 7).2 = ∅
  ∧ ∃ j, db (run Cases.null_description Scenario.rows ∅ 7).2 !! 7 = Some j
         ∧ status j = "failed"
         ∧ error_message j = Some "'NoneType' object is not subscriptable"
         ∧ video_title j = PyNone.
Proof.
  apply (null_description_fails_the_job
           Cases.null_description Scenario.rows ∅ 7 Scenario.job
           Cases.info_without_description);
    vm_compute; reflexivity.
Defined.

(** X8.  The WAV conversion never writes onto the downloaded audio: the
    download path ends in [.mp3], the conversion output in [.wav], so the
    files the stages of one execution return are pairwise distinct. *)
Theorem conversion_never_overwrites_the_download env rows files job_id :
  NoDup (artifacts (trace (run env rows files job_id).2)).
Proof.
  destruct env. norm. destruct (rows !! job_id) as [j0|] eqn:Hj.
  2:{ norm. constructor. }
  exec_task video_info_dict_title cleanup_spec.
  all: read_artifacts.
  all: repeat constructor; try (by intros ?%elem_of_nil).
  all: intros Hin%list_elem_of_singleton; symmetry in Hin;
    by apply mp3_is_not_converted_in_place in Hin.
Qed.

(** ** [services/downloader.py] *)

(** X9.  The metadata dictionary always has exactly the eight keys: a
    key yt-dlp does not report is there with [None], and every key but
    the description carries yt-dlp's value unchanged. *)
Theorem video_info_has_all_keys env url w vi :
  (get_video_info env url w).1 = Returns vi →
  dom vi = video_info_keys
  ∧ ∃ info,
      extract_info env url false = Returns info
      ∧ (∀ k, k ∈ video_info_keys → k ≠ "description" →
              vi !! k = Some (dict_get info k))
      ∧ (∀ k, k ∈ video_info_keys → info !! k = None → k ≠ "description" →
              vi !! k = Some PyNone).
Proof.
  destruct env, w as [d s f wt c tr]. norm.
  repeat (exec_step; norm); intros [= <-].
  split; [apply video_info_dict_dom|].
  eexists; split; [reflexivity|].
  assert (H : ∀ k, k ∈ video_info_keys → k ≠ "description" →
                video_info_dict a a0 !! k = Some (dict_get a k)).
  { intros k Hk Hne. unfold video_info_keys in Hk. unfold video_info_dict.
    rewrite !elem_of_union, !elem_of_singleton in Hk.
    destruct_or!; subst; by simplify_map_eq. }
  split; [exact H|].
  intros k Hk Hnone Hne. rewrite H by done. unfold dict_get. by rewrite Hnone.
Qed.

Lemma video_info_has_all_keys_witness :
  dom (video_info_dict Scenario.info (PyStr "about things")) = video_info_keys
  ∧ ∃ info,
      extract_info Scenario.all_good "https://youtu.be/abc" false = Returns info
      ∧ (∀ k, k ∈ video_info_keys → k ≠ "description" →
              video_info_dict Scenario.info (PyStr "about things") !! k
              = Some (dict_get info k))
      ∧ (∀ k, k ∈ video_info_keys → info !! k = None → k ≠ "description" →
              video_info_dict Scenario.info (PyStr "about things") !! k
              = Some PyNone).
Proof.
  apply (video_info_has_all_keys
           Scenario.all_good "https://youtu.be/abc" Cases.empty_world
           (video_info_dict Scenario.info (PyStr "about things"))).
  reflexivity.
Defined.


(** X11.  The path [download_audio_only] returns is rebuilt from the
    video id alone: it is [<temp_dir>/<id>.mp3], [None.mp3] when yt-dlp
    reports no id.  It always ends in [.mp3], whatever was downloaded,
    and so is never the default output of its own WAV conversion. *)
Theorem audio_path_is_built_from_the_id env temp_dir url w p :
  (download_audio_only env temp_dir url w).1 = Returns p →
  ∃ info,
    extract_info env url true = Returns info
    ∧ p = os_path_join temp_dir (py_str (dict_get info "id") +:+ ".mp3")
    ∧ (info !! "id" = None → p = os_path_join temp_dir "None.mp3")
    ∧ (∃ y, p = y +:+ ".mp3")
    ∧ splitext_root p +:+ ".wav" ≠ p.
Proof.
  destruct env, w as [d s f wt c tr]. norm.
  repeat (exec_step; norm); intros [= <-].
  eexists; split; [reflexivity|]. split; [reflexivity|].
  split; [|split].
  - intros Hid. unfold dict_get. by rewrite Hid.
  - destruct (os_path_join_ends temp_dir (py_str (dict_get a "id") +:+ ".mp3"))
      as [y Hy].
    exists (y +:+ py_str (dict_get a "id")). by rewrite Hy, append_assoc.
  - apply mp3_is_not_converted_in_place.
Qed.

Lemma audio_path_witness :
  ∃ info,
    extract_info Scenario.all_good "https://youtu.be/abc" true = Returns info
    ∧ Scenario.mp3
      = os_path_join "/app/temp" (py_str (dict_get info "id") +:+ ".mp3")
    ∧ (info !! "id" = None → Scenario.mp3 = os_path_join "/app/temp" "None.mp3")
    ∧ (∃ y, Scenario.mp3 = y +:+ ".mp3")
    ∧ splitext_root Scenario.mp3 +:+ ".wav" ≠ Scenario.mp3.
Proof.
  apply (audio_path_is_built_from_the_id
           Scenario.all_good "/app/temp" "https://youtu.be/abc"
           Cases.empty_world Scenario.mp3).
  vm_compute; reflexivity.
Defined.

(** ** [services/media_proc.py] *)

(** X12.  Left to their default output path, [extract_audio] and
    [trim_audio] never write onto the file they read: the default output
    differs from the input whatever the input's name is. *)
Theorem extract_and_trim_never_write_onto_their_input p start_time duration :
  ff_output (extract_audio_command p None)
    ≠ ff_input (extract_audio_command p None)
  ∧ ff_output (trim_audio_command p None start_time duration)
    ≠ ff_input (trim_audio_command p None start_time duration).
Proof.
  assert (H : ∀ suffix e, suffix = String "_"%char e →
                splitext_root p +:+ suffix ≠ p).
  { intros suffix e -> E%default_output_is_input.
    destruct (splitext_parts p) as [_ [E'|[e' E']]]; congruence. }
  split.
  - cbn. by eapply H.
  - unfold trim_audio_command.
    destruct duration as [d|]; [destruct (duration_given _)|]; cbn;
      by eapply H.
Qed.

(** X13.  [convert_to_wav], left to its default output path, reads and
    writes the same file exactly when the input's extension already is
    [.wav]. *)
Theorem convert_to_wav_in_place_iff_wav p sample_rate :
  ff_output (convert_to_wav_command p None sample_rate)
    = ff_input (convert_to_wav_command p None sample_rate)
  ↔ splitext_ext p = ".wav".
Proof. cbn. apply default_output_is_input. Qed.

(** X14.  [trim_audio] tests its duration for truth, so a duration of
    [0.0] is treated as no duration at all: the output is not limited.
    Any other duration is passed to ffmpeg as [t]. *)
Theorem trim_audio_zero_duration_is_no_duration ffmpeg_exec p o start_time :
  trim_audio ffmpeg_exec p o start_time (Some float_zero)
    = trim_audio ffmpeg_exec p o start_time None
  ∧ (∀ d, d ≠ float_zero →
       ff_output_opts (trim_audio_command p o start_time (Some d))
       = [("t", FfFloat d); ("acodec", FfStr "copy")])
  ∧ ff_output_opts (trim_audio_command p o start_time (Some float_zero))
    = [("acodec", FfStr "copy")].
Proof.
  split; [reflexivity|]. split; [|reflexivity].
  intros d Hd. unfold trim_audio_command, duration_given.
  by rewrite bool_decide_eq_false_2.
Qed.

(** X15.  A duration that [get_audio_duration] returns is the
    [duration] entry of the first stream ffprobe lists, read as a
    float; later streams are never looked at. *)
Theorem audio_duration_comes_from_first_stream probe float_of_string path d :
  get_audio_duration probe float_of_string path = Returns d →
  ∃ p first rest v,
    probe path = Returns p
    ∧ json_get "streams" p = Some (JList (JDict first :: rest))
    ∧ json_get "duration" first = Some v
    ∧ py_float float_of_string v = Returns d.
Proof.
  unfold get_audio_duration, bind_outcome, getitem_str.
  destruct (probe path) as [p|e] eqn:Hp;
    [|by destruct (duration_error_is_caught e)].
  destruct (json_get "streams" p) as [streams|] eqn:Hs; [|done].
  destruct streams as [| | | s | [|stream rest] | d']; cbn; try done.
  { destruct s; cbn; done. }
  destruct stream as [| | | | | first]; cbn; try done.
  destruct (json_get "duration" first) as [v|] eqn:Hd; [|done].
  destruct (py_float float_of_string v) as [q|e] eqn:E;
    [|by destruct (duration_error_is_caught e)].
  intros [= ->]. eauto 10.
Qed.

Lemma audio_duration_witness :
  ∃ p first rest v,
    Cases.probe_of Cases.good_probe "/app/temp/abc.mp3" = Returns p
    ∧ json_get "streams" p = Some (JList (JDict first :: rest))
    ∧ json_get "duration" first = Some v
    ∧ py_float Cases.parse_float v = Returns Cases.twelve_and_a_half.
Proof.
  apply (audio_duration_comes_from_first_stream
           (Cases.probe_of Cases.good_probe) Cases.parse_float
           "/app/temp/abc.mp3" Cases.twelve_and_a_half).
  reflexivity.
Defined.

(** X16.  What [get_audio_duration] raises on a malformed ffprobe
    answer: a missing [streams] or [duration] key is reworded as
    [Error getting audio duration: '<key>']; an empty stream list raises
    [IndexError] and a null duration raises [TypeError], neither of
    which the method catches. *)
Theorem audio_duration_errors probe float_of_string path p :
  probe path = Returns p →
  (json_get "streams" p = None →
     get_audio_duration probe float_of_string path
     = Raises (Exception "Error getting audio duration: 'streams'"))
  ∧ (json_get "streams" p = Some (JList []) →
     get_audio_duration probe float_of_string path
     = Raises (IndexError "list index out of range"))
  ∧ (∀ first rest,
       json_get "streams" p = Some (JList (JDict first :: rest)) →
       json_get "duration" first = None →
       get_audio_duration probe float_of_string path
       = Raises (Exception "Error getting audio duration: 'duration'"))
  ∧ (∀ first rest,
       json_get "streams" p = Some (JList (JDict first :: rest)) →
       json_get "duration" first = Some JNull →
       ∃ e, get_audio_duration probe float_of_string path = Raises e
            ∧ exn_class e = "TypeError").
Proof.
  intros Hp. unfold get_audio_duration, bind_outcome, getitem_str.
  rewrite Hp. repeat split.
  - by intros ->.
  - by intros ->.
  - intros first rest -> . cbn. by intros ->.
  - intros first rest -> . cbn. intros ->. by eexists.
Qed.

Lemma audio_duration_errors_witness :
  get_audio_duration (Cases.probe_of [("streams", JList [])])
                     Cases.parse_float "/app/temp/abc.mp3"
  = Raises (IndexError "list index out of range").
Proof.
  apply (audio_duration_errors
           (Cases.probe_of [("streams", JList [])]) Cases.parse_float
           "/app/temp/abc.mp3" [("streams", JList [])]);
    reflexivity.
Defined.

(** ** [services/transcriber.py] *)

(** X17.  The model is loaded once: a second transcription on the same
    transcriber loads nothing and keeps the model, and returns what
    whisper heard, the language defaulting to [unknown] and the segments
    to the empty list. *)
Theorem second_transcription_reuses_the_model env w size dev p1 p2 r1 :
  let w0 := with_whisper (Some (mkTranscriber size None dev)) w in
  (transcribe env p1 w0).1 = Returns r1 →
  let w1 := (transcribe env p1 w0).2 in
  trace (transcribe env p2 w1).2
    = (trace w ++ [EvCall Transcribe; EvLoadModel; EvCall Transcribe])%list
  ∧ (model <$> whisper (transcribe env p2 w1).2)
    = Some (Some (mkModel size dev))
  ∧ (transcribe env p2 w1).1
    = match model_transcribe env p2 with
      | Returns heard => Returns (transcription_of heard)
      | Raises e => Raises e
      end.
Proof.
  destruct env, w as [d s f wt c tr]. norm.
  repeat (exec_step; norm); intros Hret; try discriminate Hret.
  all: rewrite <- !app_assoc; done.
Qed.

Lemma second_transcription_witness :
  let w0 := with_whisper (Some (mkTranscriber "base" None "cpu"))
                         Cases.empty_world in
  let w1 := (transcribe Scenario.all_good Scenario.wav w0).2 in
  trace (transcribe Scenario.all_good "/app/temp/xyz.wav" w1).2
    = [EvCall Transcribe; EvLoadModel; EvCall Transcribe]
  ∧ (model <$> whisper (transcribe Scenario.all_good "/app/temp/xyz.wav" w1).2)
    = Some (Some (mkModel "base" "cpu"))
  ∧ (transcribe Scenario.all_good "/app/temp/xyz.wav" w1).1
    = Returns (mkTranscription "hello" "en" []).
Proof.
  apply (second_transcription_reuses_the_model
           Scenario.all_good Cases.empty_world "base" "cpu"
           Scenario.wav "/app/temp/xyz.wav"
           (mkTranscription "hello" "en" [])).
  vm_compute; reflexivity.
Defined.

(** X18.  When whisper cannot load the model, [transcribe] raises the
    loader's exception and changes nothing: the transcriber still holds
    no model, so the next call will try to load again. *)
Theorem failed_load_leaves_no_model env w size dev p e :
  whisper_load_model env size dev = Some e →
  let w0 := with_whisper (Some (mkTranscriber size None dev)) w in
  transcribe env p w0 = (Raises e, log (EvCall Transcribe) w0).
Proof.
  intros Hload. destruct env, w as [d s f wt c tr]. cbn in Hload.
  norm. rewrite Hload. reflexivity.
Qed.

Lemma failed_load_witness :
  let w0 := with_whisper (Some (mkTranscriber "base" None "cpu"))
                         Cases.empty_world in
  transcribe Cases.load_fails Scenario.wav w0
  = (Raises (Exn "RuntimeError" "out of memory"),
     log (EvCall Transcribe) w0).
Proof.
  apply (failed_load_leaves_no_model
           Cases.load_fails Cases.empty_world "base" "cpu" Scenario.wav
           (Exn "RuntimeError" "out of memory")).
  reflexivity.
Defined.

(** X19.  [unload_model] really lets the model go: the next
    transcription loads it again (and the CUDA cache is emptied in
    between exactly when CUDA is available). *)
Theorem unloaded_model_is_loaded_again env w size dev p1 p2 r1 r2 :
  let w0 := with_whisper (Some (mkTranscriber size None dev)) w in
  (transcribe env p1 w0).1 = Returns r1 →
  let w1 := (unload_model env (transcribe env p1 w0).2).2 in
  (transcribe env p2 w1).1 = Returns r2 →
  trace (transcribe env p2 w1).2
  = (trace w ++ [EvCall Transcribe; EvLoadModel; EvUnloadModel]
             ++ (if cuda_is_available env then [EvCudaEmptyCache] else [])
             ++ [EvCall Transcribe; EvLoadModel])%list.
Proof.
  destruct env, w as [d s f wt c tr]. norm.
  repeat (exec_step; norm); intros Hret; try discriminate Hret.
  all: intros Hret2; try discriminate Hret2.
  all: rewrite <- !app_assoc; done.
Qed.

Lemma unloaded_model_witness :
  let w0 := with_whisper (Some (mkTranscriber "base" None "cpu"))
                         Cases.empty_world in
  let w1 := (unload_model Scenario.all_good
               (transcribe Scenario.all_good Scenario.wav w0).2).2 in
  trace (transcribe Scenario.all_good "/app/temp/xyz.wav" w1).2
  = [EvCall Transcribe; EvLoadModel; EvUnloadModel;
     EvCall Transcribe; EvLoadModel].
Proof.
  apply (unloaded_model_is_loaded_again
           Scenario.all_good Cases.empty_world "base" "cpu"
           Scenario.wav "/app/temp/xyz.wav"
           (mkTranscription "hello" "en" [])
           (mkTranscription "hello" "en" []));
    vm_compute; reflexivity.
Defined.

(** ** [DatabaseTask] *)

(** X20.  Over any sequence of reads of [self.db] and calls of
    [after_return], no session is closed twice, every session made is
    closed unless it is the one still held, only sessions that were
    made are held or closed, a second read of [db] gives the same
    session without making one, and [after_return] twice is
    [after_return] once. *)
Theorem task_sessions_are_closed_once ops :
  let self := task_life ops in
  NoDup (closed self)
  ∧ (∀ s, (s < sessions_made self)%nat → (s ∈ closed self ↔ _db self ≠ Some s))
  ∧ (∀ s, s ∈ closed self ∨ _db self = Some s → (s < sessions_made self)%nat)
  ∧ (db_property (db_property self).2
     = ((db_property self).1, (db_property self).2))
  ∧ after_return (after_return self) = after_return self.
Proof.
  intros self. destruct (task_life_ok ops) as (Hnd & Hlt & Hdb).
  fold self in Hnd, Hlt, Hdb.
  split; [done|]. split; [|split; [|split]].
  - intros s Hs. destruct (_db self) as [s0|].
    + destruct Hdb as (_ & Hns & Hall). split.
      * intros Hin [= ->]. done.
      * intros Hne. apply Hall; [done|]. congruence.
    + split; [done|]. intros _. by apply Hdb.
  - intros s [Hin| Heq]; [by apply Hlt|].
    rewrite Heq in Hdb. by destruct Hdb.
  - clear. clearbody self. by destruct self as [[?|] ? ?].
  - clear. clearbody self. by destruct self as [[?|] ? ?].
Qed.

(** X21.  Once [after_return] has run, the task holds no session and
    every session it ever made has been closed. *)
Theorem after_return_closes_everything ops :
  let self := task_life (ops ++ [AfterReturn]) in
  _db self = None
  ∧ ∀ s, (s < sessions_made self)%nat → s ∈ closed self.
Proof.
  intros self.
  assert (E : _db self = None).
  { unfold self, task_life. rewrite foldl_app. cbn [foldl task_step_op].
    generalize (foldl task_step_op new_task ops). by intros [[?|] ? ?]. }
  split; [done|].
  destruct (task_life_ok (ops ++ [AfterReturn])) as (_ & _ & Hdb).
  fold self in Hdb. by rewrite E in Hdb.
Qed.

(** ** [api/endpoints.py] *)

(** X22.  When [list_jobs] answers, it answers with at most [limit]
    jobs, each of them a row of the table rendered as its status
    response; with a non-empty status filter every job shown has that
    status, and an empty filter is no filter. *)
Theorem list_jobs_respects_limit_and_status
    isoformat nulls_first rows limit status_arg responses :
  list_jobs isoformat nulls_first rows limit status_arg = Some (Ok200 responses) →
  (length responses ≤ Z.to_nat limit)%nat
  ∧ (∀ r, r ∈ responses →
          ∃ j, rows !! sr_job_id r = Some j
               ∧ status_response isoformat (sr_job_id r) j = Ok200 r)
  ∧ (∀ s r, status_arg = Some s → s ≠ "" → r ∈ responses → sr_status r = s)
  ∧ list_jobs isoformat nulls_first rows limit (Some "")
    = list_jobs isoformat nulls_first rows limit None.
Proof.
  unfold list_jobs, list_jobs_rows. case_bool_decide; [done|].
  cbn [fmap option_fmap option_map]. intros [= Hr].
  apply status_responses_ok in Hr as [Hlen Hin].
  assert (Hrow : ∀ r, r ∈ responses →
            ∃ k j, rows !! k = Some j ∧ status_filter status_arg (k, j) = true
                   ∧ status_response isoformat k j = Ok200 r).
  { intros r ([k j] & Hsel%in_take & Hok)%Hin.
    rewrite merge_sort_Permutation in Hsel.
    apply list_elem_of_filter in Hsel as [Hf Hsel].
    apply elem_of_map_to_list in Hsel. by exists k, j. }
  split; [rewrite Hlen, length_take; lia|].
  split.
  { intros r (k & j & Hk & _ & Hok)%Hrow.
    destruct (status_response_ok _ _ _ _ Hok) as [-> _]. by exists j. }
  split; [|done].
  intros s r -> Hs (k & j & _ & Hf & Hok)%Hrow.
  destruct (status_response_ok _ _ _ _ Hok) as [_ ->].
  cbn in Hf. destruct s; [done|]. by apply String.eqb_eq in Hf.
Qed.

Lemma list_jobs_limit_witness :
  ∃ responses,
    list_jobs pretty true Cases.three_rows 1 (Some "pending")
      = Some (Ok200 responses)
    ∧ (length responses ≤ 1)%nat
    ∧ (∀ r, r ∈ responses → sr_status r = "pending").
Proof.
  eexists. split; [reflexivity|].
  match goal with
  | |- (length ?l ≤ _)%nat ∧ _ =>
      destruct (list_jobs_respects_limit_and_status
                  pretty true Cases.three_rows 1 (Some "pending") l eq_refl)
        as (Hlen & _ & Hst & _)
  end.
  split; [exact Hlen|].
  intros r Hr. by apply (Hst "pending").
Defined.

(** X23.  The jobs [list_jobs] selects are ordered newest first; a job
    that matches the filter and is left out is no newer than any job
    shown; and when fewer than [limit] jobs are shown, every matching
    job is among them. *)
Theorem list_jobs_returns_the_newest
    nulls_first rows limit status_arg selected :
  list_jobs_rows nulls_first rows limit status_arg = Some selected →
  StronglySorted (newer_or_same nulls_first) selected
  ∧ (∀ shown k j,
       shown ∈ selected → rows !! k = Some j →
       status_filter status_arg (k, j) = true → (k, j) ∉ selected →
       newer_or_same nulls_first shown (k, j))
  ∧ (∀ k j,
       (length selected < Z.to_nat limit)%nat → rows !! k = Some j →
       status_filter status_arg (k, j) = true → (k, j) ∈ selected).
Proof.
  unfold list_jobs_rows. case_bool_decide; [done|]. intros [= <-].
  set (l := merge_sort (newer_or_same nulls_first) (filter _ (map_to_list rows))).
  assert (Hs : StronglySorted (newer_or_same nulls_first) l).
  { apply StronglySorted_merge_sort; apply _. }
  assert (Hin : ∀ k j, rows !! k = Some j →
                  status_filter status_arg (k, j) = true → (k, j) ∈ l).
  { intros k j Hk Hf. unfold l. rewrite merge_sort_Permutation.
    apply list_elem_of_filter. split; [done|].
    by apply elem_of_map_to_list. }
  rewrite <- (take_drop (Z.to_nat limit) l) in Hs, Hin.
  split; [by apply StronglySorted_app_1_l in Hs|]. split.
  - intros shown k j Hshown Hk Hf Hnot.
    eapply StronglySorted_app_1_elem_of; [exact Hs | exact Hshown |].
    specialize (Hin k j Hk Hf). apply elem_of_app in Hin as [?|?]; done.
  - intros k j Hlen Hk Hf. specialize (Hin k j Hk Hf).
    rewrite length_take in Hlen.
    rewrite take_ge in * by lia. by rewrite drop_ge, app_nil_r in Hin by lia.
Qed.

Lemma list_jobs_newest_witness :
  list_jobs_rows false Cases.three_rows 2 None
    = Some [(9, Cases.newest_job); (7, Scenario.job)]
  ∧ StronglySorted (newer_or_same false)
      [(9, Cases.newest_job); (7, Scenario.job)].
Proof.
  split; [vm_compute; reflexivity|].
  apply (list_jobs_returns_the_newest false Cases.three_rows 2 None).
  vm_compute; reflexivity.
Defined.

(** X24.  Submission, execution and polling compose: a job just
    submitted is answered 202 [pending]; once the worker has run on the
    id the submission dispatched, the result endpoint answers 200 for
    the id the submitter was given, with the URL and creation time of
    the submission, a completion time, and either [completed] with the
    payload the task returned and no error, or [failed] with no result
    and the message of the exception the task raised. *)
Theorem submitted_job_is_answered_after_the_run
    isoformat env rows files url new_id now :
  let submitted := submit_analysis rows url new_id now in
  let rows1 := submitted.1.1 in
  let job_id := submitted.2 in
  let done := run env rows1 files job_id in
  get_analysis_result isoformat rows1 job_id
    = HTTPException 202 "Job is still pending. Please check back later."
  ∧ ∃ answer,
      get_analysis_result isoformat (db done.2) job_id = Ok200 answer
      ∧ rr_job_id answer = ar_job_id submitted.1.2
      ∧ rr_youtube_url answer = url
      ∧ rr_created_at answer = isoformat now
      ∧ is_Some (rr_completed_at answer)
      ∧ match done.1 with
        | Returns r =>
            rr_status answer = "completed"
            ∧ rr_result answer = Some r
            ∧ rr_error_message answer = None
        | Raises e =>
            rr_status answer = "failed"
            ∧ rr_result answer = None
            ∧ rr_error_message answer = Some (exn_msg e)
        end.
Proof.
  cbn zeta. unfold submit_analysis. cbn [fst snd].
  split. { unfold get_analysis_result. by rewrite lookup_insert_eq. }
  destruct env. norm. rewrite lookup_insert_eq.
  exec_task video_info_dict_title cleanup_spec.
  all: unfold get_analysis_result; rewrite db_put_lookup; cbn.
  all: eexists; split; [reflexivity|]; cbn; repeat split; eauto.
Qed.

(** X25.  While the task is under way the result endpoint withholds the
    row: a client reading any commit but the last is answered 202
    [processing] by the result endpoint, and (for a row that has a
    creation time) the status endpoint shows [processing] with the
    error message and completion time the row had before the task. *)
Theorem result_is_withheld_until_the_terminal_write
    isoformat env rows files job_id j0 pre j post c :
  rows !! job_id = Some j0 →
  commits (trace (run env rows files job_id).2) = (pre ++ j :: post)%list →
  post ≠ [] →
  created_at j0 = Some c →
  get_analysis_result isoformat (<[job_id := j]> rows) job_id
    = HTTPException 202 "Job is still processing. Please check back later."
  ∧ ∃ answer,
      get_analysis_status isoformat (<[job_id := j]> rows) job_id = Ok200 answer
      ∧ sr_status answer = "processing"
      ∧ sr_created_at answer = isoformat c
      ∧ sr_error_message answer = error_message j0
      ∧ sr_completed_at answer = isoformat <$> completed_at j0.
Proof.
  intros Hj Hc Hpost Hcreated.
  destruct (earlier_commits_are_processing _ _ _ _ _ _ _ _ Hj Hc Hpost)
    as (Hs & He & Hd & Hcr).
  unfold get_analysis_result, get_analysis_status, status_response.
  rewrite lookup_insert_eq, Hs, Hcr, Hcreated. split; [reflexivity|].
  eexists; split; [reflexivity|]. cbn. by rewrite ?Hs, ?He, ?Hd.
Qed.

Lemma result_is_withheld_witness :
  get_analysis_result pretty
    (<[7 := set_status "processing" Scenario.job]> Scenario.rows) 7
    = HTTPException 202 "Job is still processing. Please check back later."
  ∧ ∃ answer,
      get_analysis_status pretty
        (<[7 := set_status "processing" Scenario.job]> Scenario.rows) 7
        = Ok200 answer
      ∧ sr_status answer = "processing"
      ∧ sr_created_at answer = pretty 50
      ∧ sr_error_message answer = error_message Scenario.job
      ∧ sr_completed_at answer = pretty <$> completed_at Scenario.job.
Proof.
  eapply (result_is_withheld_until_the_terminal_write
            pretty Scenario.all_good Scenario.rows ∅ 7 Scenario.job []
            (set_status "processing" Scenario.job)).
  - reflexivity.
  - vm_compute. reflexivity.
  - vm_compute. discriminate.
  - reflexivity.
Defined.

(** X27.  The endpoints pass [None] as [created_at] for a row without a
    creation time, but the response models declare that field [str]: for
    such a row the status endpoint fails to build its response, and so
    does the whole listing as soon as the row is among the jobs
    selected. *)
Theorem row_without_creation_time_breaks_the_listing
    isoformat nulls_first rows limit status_arg selected k j :
  list_jobs_rows nulls_first rows limit status_arg = Some selected →
  (k, j) ∈ selected →
  created_at j = None →
  list_jobs isoformat nulls_first rows limit status_arg = Some ValidationError
  ∧ get_analysis_status isoformat rows k = ValidationError.
Proof.
  intros Hsel Hin Hc. unfold list_jobs. rewrite Hsel.
  cbn [fmap option_fmap option_map].
  split; [by rewrite (status_responses_invalid isoformat selected k j)|].
  revert Hsel. unfold list_jobs_rows. case_bool_decide; [done|].
  intros [= <-]. apply in_take in Hin.
  rewrite merge_sort_Permutation in Hin.
  apply list_elem_of_filter in Hin as [_ Hin].
  apply elem_of_map_to_list in Hin.
  unfold get_analysis_status, status_response. by rewrite Hin, Hc.
Qed.

Lemma row_without_creation_time_witness :
  list_jobs pretty true Cases.with_undated_row 5 None = Some ValidationError
  ∧ get_analysis_status pretty Cases.with_undated_row 3 = ValidationError.
Proof.
  apply (row_without_creation_time_breaks_the_listing
           pretty true Cases.with_undated_row 5 None
           [(3, Cases.undated_job); (7, Scenario.job)] 3 Cases.undated_job).
  - vm_compute. reflexivity.
  - apply elem_of_cons. by left.
  - reflexivity.
Defined.

(** ** [_format_timestamp] *)

Section TimestampFacts.
Import QArith_base Qround Lqa.

Lemma Qfloor_unique (x : Q) (z : Z) :
  (inject_Z z <= x)%Q → (x < inject_Z (z + 1))%Q → Qfloor x = z.
Proof.
  intros Hle Hlt.
  pose proof (Qfloor_le x) as H1. pose proof (Qlt_floor x) as H2.
  assert (inject_Z (Qfloor x) < inject_Z (z + 1))%Q as H3 by lra.
  assert (inject_Z z < inject_Z (Qfloor x + 1))%Q as H4 by lra.
  rewrite <- Zlt_Qlt in H3, H4. lia.
Qed.

Lemma floordiv_60_floor (x : Q) :
  Qfloor (x / inject_Z 60) = (Qfloor x / 60)%Z.
Proof.
  apply Qfloor_unique.
  - pose proof (Qfloor_le x) as H1.
    assert (60 * (Qfloor x / 60) <= Qfloor x)%Z as H
      by (apply Z.mul_div_le; lia).
    rewrite Zle_Qle, inject_Z_mult in H.
    apply Qle_shift_div_l; [reflexivity|]. lra.
  - pose proof (Qlt_floor x) as H2.
    assert (Qfloor x + 1 <= 60 * (Qfloor x / 60 + 1))%Z as H.
    { pose proof (Z.mod_pos_bound (Qfloor x) 60 ltac:(lia)).
      pose proof (Z.div_mod (Qfloor x) 60 ltac:(lia)). lia. }
    rewrite Zle_Qle, inject_Z_mult in H.
    apply Qlt_shift_div_r; [reflexivity|]. lra.
Qed.

Lemma py_int_nonneg (x : Q) : (inject_Z 0 <= x)%Q → py_int x = Qfloor x.
Proof. intros H. unfold py_int. apply Qle_bool_iff in H. by rewrite H. Qed.

(** X26.  For a float from 0 up to 2^53, [_format_timestamp] shows the
    whole seconds of it as minutes and seconds: the seconds field is
    between 0 and 59, the fraction is dropped (not rounded), and the
    minutes are not wrapped at the hour. *)
Theorem format_timestamp_shows_whole_seconds (seconds : pyfloat) :
  (inject_Z 0 <= Qcanon.this seconds)%Q →
  (Qcanon.this seconds < inject_Z (2 ^ 53))%Q →
  let t := Qfloor (Qcanon.this seconds) in
  _format_timestamp seconds
    = Some (format_02d (t / 60) +:+ ":" +:+ format_02d (t mod 60))
  ∧ (0 ≤ t mod 60 ≤ 59)%Z
  ∧ (0 ≤ t / 60)%Z.
Proof.
  intros Hpos Hbound t. set (x := Qcanon.this seconds) in *.
  pose proof (Qfloor_le x) as H1. pose proof (Qlt_floor x) as H2.
  fold t in H1, H2.
  assert (Ht : (0 ≤ t)%Z).
  { assert (inject_Z (-1) < inject_Z t)%Q as H.
    { rewrite inject_Z_plus in H2. change (inject_Z 1) with 1%Q in H2.
      change (inject_Z 0) with 0%Q in Hpos.
      change (inject_Z (-1)) with (-1)%Q. lra. }
    rewrite <- Zlt_Qlt in H. lia. }
  assert (Hm : (0 ≤ t / 60)%Z) by (apply Z.div_pos; lia).
  pose proof (Z.mod_pos_bound t 60 ltac:(lia)) as Hs.
  split; [|split; [lia | done]].
  assert (Hrange : computed_exactly seconds = true).
  { unfold computed_exactly. fold x. apply andb_true_intro. split.
    - by apply Qle_bool_iff.
    - apply negb_true_iff. destruct (Qle_bool (inject_Z (2 ^ 53)) x) eqn:E;
        [|done]. apply Qle_bool_iff in E. lra. }
  unfold _format_timestamp, mod_60, floordiv_60. rewrite Hrange. fold x.
  cbn [fmap option_fmap option_map mbind option_bind].
  rewrite (floordiv_60_floor x). fold t.
  rewrite (py_int_nonneg (inject_Z (t / 60))) by (rewrite <- Zle_Qle; lia).
  rewrite Qfloor_Z.
  assert (E : Qfloor (x - inject_Z 60 * inject_Z (t / 60)) = (t mod 60)%Z).
  { apply Qfloor_unique.
    - rewrite Z.mod_eq by lia. rewrite inject_Z_plus in H2.
      unfold Z.sub. rewrite inject_Z_plus, inject_Z_opp, inject_Z_mult. lra.
    - rewrite Z.mod_eq by lia. rewrite inject_Z_plus in H2 |- *.
      unfold Z.sub. rewrite inject_Z_plus, inject_Z_opp, inject_Z_mult. lra. }
  rewrite py_int_nonneg; [by rewrite E|].
  pose proof (Qfloor_le (x - inject_Z 60 * inject_Z (t / 60))) as H3.
  rewrite E in H3.
  assert (inject_Z 0 <= inject_Z (t mod 60))%Q by (rewrite <- Zle_Qle; lia).
  lra.
Qed.

Lemma format_timestamp_witness :
  _format_timestamp Cases.over_an_hour = Some "61:01"
  ∧ _format_timestamp Cases.some_seconds = Some "02:05".
Proof.
  split.
  - destruct (format_timestamp_shows_whole_seconds Cases.over_an_hour)
      as [E _]; [vm_compute; discriminate | vm_compute; reflexivity |].
    rewrite E. vm_compute. reflexivity.
  - vm_compute. reflexivity.
Defined.

End TimestampFacts.
